(** * Hand-gesture classifier and key stabilizer of [testing.py]

    A shallow embedding of the decision logic of the script: the fist test
    [is_roll_gesture], the classifier [get_hand_gesture], the band policy
    [angle_to_direction] and the part of the loop of [main] that turns a
    detected hand into at most one key press.

    Conventions of the model.
    - Landmark coordinates are integers ([Z]): the detector hands out pixel
      coordinates as Python ints, and only entries [0] and [1] of a landmark
      are ever read.
    - Quantities that Python computes in floating point (the fingertip
      midpoint, angles, clock readings) are rationals ([Q]) with exact
      arithmetic.  Comparisons are the ones of the source.
    - [math.degrees(math.atan2(y, x))] is a parameter of the classifier.
    - A Python exception is a value [Raise e] of the type [result].
    - For the classifier and the stabilizer a frame is what reaches line 168
      of the source; the [while] loop around it, with its frame counter, its
      skipped frames and its two ways out, is [main_loop].  Drawing on the
      image and the key injection itself are not modelled. *)

From Stdlib Require Import ZArith QArith Qround Lqa Lia List Bool.
Import ListNotations.

Local Open Scope Z_scope.

(** ** Exceptions *)

(** [IndexError] is what indexing a short list raises.  The other two are
    the conditions the documentation names; no line of the script raises
    them. *)
Inductive exn : Type :=
| IndexError
| ConfigurationError
| InvalidInput.

Inductive result (A : Type) : Type :=
| Ok (a : A)
| Raise (e : exn).

Arguments Ok {A} a.
Arguments Raise {A} e.

Definition bind {A B : Type} (c : result A) (k : A -> result B) : result B :=
  match c with
  | Ok a => k a
  | Raise e => Raise e
  end.

Notation "x <- c ;; k" := (bind c (fun x => k))
  (at level 61, c at next level, right associativity).

(** ** Data *)

(** One landmark: [landmarks[i][0]] and [landmarks[i][1]]. *)
Record Point : Type := mkPoint { px : Z; py : Z }.

Definition Landmarks : Type := list Point.

(** The four strings that name a key: ['left'], ['right'], ['up'], ['down']. *)
Inductive Action : Type := left | right | up | down.

(** What [get_hand_gesture] returns: ['roll'], a float, or [None]. *)
Inductive RawGesture : Type :=
| Roll
| Angle (angle : Q)
| Ambiguous.

(** The module-level constants of the "Config" block. *)
Record Config : Type := mkConfig {
  DIRECTION_THRESHOLD : Q;
  MIN_CONFIDENCE_FRAMES : Z;
  COOLDOWN_SECONDS : Q;
  STABILITY_THRESHOLD : Q
}.

Definition source_config : Config :=
  {| DIRECTION_THRESHOLD := 35;
     MIN_CONFIDENCE_FRAMES := 1;
     COOLDOWN_SECONDS := 5 # 100;
     STABILITY_THRESHOLD := 15 |}.

(** The dict [last_sent]: created with the four keys, never grown or shrunk. *)
Record LastSent : Type := mkLastSent {
  sent_left : Q;
  sent_right : Q;
  sent_up : Q;
  sent_down : Q
}.

(** [last_sent[key]] *)
Definition sent_at (last_sent : LastSent) (key : Action) : Q :=
  match key with
  | left => sent_left last_sent
  | right => sent_right last_sent
  | up => sent_up last_sent
  | down => sent_down last_sent
  end.

(** [last_sent[key] = now] *)
Definition sent_store (last_sent : LastSent) (key : Action) (now : Q) : LastSent :=
  match key with
  | left => {| sent_left := now; sent_right := sent_right last_sent;
               sent_up := sent_up last_sent; sent_down := sent_down last_sent |}
  | right => {| sent_left := sent_left last_sent; sent_right := now;
                sent_up := sent_up last_sent; sent_down := sent_down last_sent |}
  | up => {| sent_left := sent_left last_sent; sent_right := sent_right last_sent;
             sent_up := now; sent_down := sent_down last_sent |}
  | down => {| sent_left := sent_left last_sent; sent_right := sent_right last_sent;
               sent_up := sent_up last_sent; sent_down := now |}
  end.

(** The two variables of [main] that survive from one frame to the next. *)
Record State : Type := mkState {
  last_sent : LastSent;
  last_gesture : option Action
}.

Definition Action_eqb (a b : Action) : bool :=
  match a, b with
  | left, left | right, right | up, up | down, down => true
  | _, _ => false
  end.

(** [direction != last_gesture] on strings-or-[None]. *)
Definition direction_neb (a b : option Action) : bool :=
  match a, b with
  | None, None => false
  | Some x, Some y => negb (Action_eqb x y)
  | _, _ => true
  end.

(** Strict comparison of rationals, as a boolean. *)
Definition Qltb (x y : Q) : bool :=
  (Qnum x * QDen y <? Qnum y * QDen x)%Z.

(** Python's [x % m] on numbers, for a positive [m]. *)
Definition py_mod (x m : Q) : Q :=
  (x - m * inject_Z (Qfloor (x / m)))%Q.

(** ** The classifier *)

(** [landmarks[i]] *)
Definition getitem (landmarks : Landmarks) (i : nat) : result Point :=
  match nth_error landmarks i with
  | Some p => Ok p
  | None => Raise IndexError
  end.

(** [(tip, pip)] pairs *)
Definition finger_pairs : list (nat * nat) :=
  [(8, 6); (12, 10); (16, 14); (20, 18)]%nat.

(** The [for] loop of [is_roll_gesture], with its counter. *)
Fixpoint count_fingers (landmarks : Landmarks) (wrist_x wrist_y : Z)
    (pairs : list (nat * nat)) (fingers_extended : Z) : result Z :=
  match pairs with
  | [] => Ok fingers_extended
  | (tip_idx, pip_idx) :: rest =>
      tip <- getitem landmarks tip_idx ;;
      pip <- getitem landmarks pip_idx ;;
      let tip_dist_sq := (px tip - wrist_x) ^ 2 + (py tip - wrist_y) ^ 2 in
      let pip_dist_sq := (px pip - wrist_x) ^ 2 + (py pip - wrist_y) ^ 2 in
      count_fingers landmarks wrist_x wrist_y rest
        (if tip_dist_sq >? pip_dist_sq
         then fingers_extended + 1 else fingers_extended)
  end.

Definition is_roll_gesture (landmarks : Landmarks) : result bool :=
  wrist <- getitem landmarks 0 ;;
  fingers_extended <-
    count_fingers landmarks (px wrist) (py wrist) finger_pairs 0 ;;
  Ok (fingers_extended <=? 2).

Section Classifier.

Variable cfg : Config.

(** [math.degrees(math.atan2(y, x))] *)
Variable atan2_degrees : Q -> Q -> Q.

Definition get_hand_gesture (landmarks : Landmarks) : result RawGesture :=
  roll <- is_roll_gesture landmarks ;;
  if roll then Ok Roll
  else
    wrist <- getitem landmarks 0 ;;
    index_tip <- getitem landmarks 8 ;;
    middle_tip <- getitem landmarks 12 ;;
    let avg_x := (inject_Z (px index_tip + px middle_tip) / 2)%Q in
    let avg_y := (inject_Z (py index_tip + py middle_tip) / 2)%Q in
    let dx := (avg_x - inject_Z (px wrist))%Q in
    let dy := (avg_y - inject_Z (py wrist))%Q in
    let distance_sq := (dx * dx + dy * dy)%Q in
    if Qltb distance_sq (STABILITY_THRESHOLD cfg * STABILITY_THRESHOLD cfg)%Q
    then Ok Ambiguous
    else
      let angle := atan2_degrees (- dy)%Q dx in
      Ok (Angle (py_mod (angle + 360) 360)).

Definition angle_to_direction (angle : Q) : option Action :=
  let th := DIRECTION_THRESHOLD cfg in
  if Qle_bool angle th || Qle_bool (360 - th) angle then Some right
  else if Qle_bool (90 - th) angle && Qle_bool angle (90 + th) then Some up
  else if Qle_bool (180 - th) angle && Qle_bool angle (180 + th) then Some left
  else None.

(** Lines 180-185 of [main]: from the raw gesture to [direction]. *)
Definition gesture_direction (gesture : RawGesture) : option Action :=
  match gesture with
  | Roll => Some down
  | Angle a => angle_to_direction a
  | Ambiguous => None
  end.

End Classifier.

(** ** The stabilizer: the body of the loop of [main] *)

Section Stabilizer.

Variable cfg : Config.
Variable atan2_degrees : Q -> Q -> Q.

(** Lines 188-192.  Returns the new values of [direction] and
    [last_gesture]. *)
Definition stability_check (direction last_gesture : option Action)
  : option Action * option Action :=
  if direction_neb direction last_gesture then
    match direction with
    | Some _ => (direction, direction)
    | None =>
        match last_gesture with
        | Some _ => (last_gesture, last_gesture)
        | None => (direction, last_gesture)
        end
    end
  else (direction, last_gesture).

(** Lines 213-215, and again lines 219-221: one cooldown test on the pair
    ([last_sent], [action]). *)
Definition send_check (direction : option Action) (now : Q)
    (st : LastSent * option Action) : LastSent * option Action :=
  match direction with
  | Some d =>
      if Qltb (COOLDOWN_SECONDS cfg) (now - sent_at (fst st) d)%Q
      then (sent_store (fst st) d now, Some d)
      else st
  | None => st
  end.

(** Lines 187-221 for a given [direction]; [now1] and [now2] are the two
    readings of [time.time()].  Returns the state, the value of
    [direction] after the stability check, and [action]. *)
Definition stabilize (direction : option Action) (now1 now2 : Q) (s : State)
  : State * option Action * option Action :=
  let '(direction', last_gesture') :=
    stability_check direction (last_gesture s) in
  let '(last_sent', action) :=
    send_check direction' now2
      (send_check direction' now1 (last_sent s, None)) in
  ({| last_sent := last_sent'; last_gesture := last_gesture' |},
   direction', action).

(** The same with the cooldown test written once. *)
Definition stabilize_once (direction : option Action) (now : Q) (s : State)
  : State * option Action * option Action :=
  let '(direction', last_gesture') :=
    stability_check direction (last_gesture s) in
  let '(last_sent', action) :=
    send_check direction' now (last_sent s, None) in
  ({| last_sent := last_sent'; last_gesture := last_gesture' |},
   direction', action).

(** The body of the [try] block, lines 177-221. *)
Definition try_body (landmarks : Landmarks) (now1 now2 : Q) (s : State)
  : result (State * option Action) :=
  gesture <- get_hand_gesture cfg atan2_degrees landmarks ;;
  let direction := gesture_direction cfg gesture in
  let '(s', _, action) := stabilize direction now1 now2 s in
  Ok (s', action).

(** One processed frame, lines 170-224: [hands] is [None] when the
    detector found no hand; [except Exception: pass] keeps what the
    variables held when the exception was raised. *)
Definition process_frame (hands : option Landmarks) (now1 now2 : Q)
    (s : State) : State * option Action :=
  match hands with
  | None => (s, None)
  | Some landmarks =>
      match try_body landmarks now1 now2 s with
      | Ok r => r
      | Raise _ => (s, None)
      end
  end.

(** A frame together with its two clock readings. *)
Record Frame : Type := mkFrame {
  frame_hands : option Landmarks;
  frame_now1 : Q;
  frame_now2 : Q
}.

(** The loop over a finite run of frames: final state and the actions sent. *)
Fixpoint run_frames (frames : list Frame) (s : State)
  : State * list (option Action) :=
  match frames with
  | [] => (s, [])
  | f :: rest =>
      let '(s1, action) :=
        process_frame (frame_hands f) (frame_now1 f) (frame_now2 f) s in
      let '(s2, actions) := run_frames rest s1 in
      (s2, action :: actions)
  end.

(** The loop on candidate directions, each with one clock reading: final
    state, and per frame the held direction and the action sent. *)
Fixpoint run_directions (frames : list (option Action * Q)) (s : State)
  : State * list (option Action * option Action) :=
  match frames with
  | [] => (s, [])
  | (direction, now) :: rest =>
      let '(s1, held, action) := stabilize direction now now s in
      let '(s2, out) := run_directions rest s1 in
      (s2, (held, action) :: out)
  end.

End Stabilizer.

(** Lines 137 and 139 of [main]: the state before the first frame.  The
    constants are read where they are used and never inspected here. *)
Definition initial_state : State :=
  {| last_sent := {| sent_left := 0; sent_right := 0;
                     sent_up := 0; sent_down := 0 |};
     last_gesture := None |}.

Definition main_init (cfg : Config) : result State := Ok initial_state.

(** ** Vocabulary of the properties *)

(** *** Angular bands *)

(** The closed interval of half-width [th] around [center]. *)
Definition band (center th a : Q) : Prop :=
  (center - th <= a /\ a <= center + th)%Q.

Definition right_band (th a : Q) : Prop := band 0 th a \/ band 360 th a.
Definition up_band (th a : Q) : Prop := band 90 th a.
Definition left_band (th a : Q) : Prop := band 180 th a.

(** *** Hands *)

(** Landmark [i] of a hand, for an index the hand has. *)
Definition landmark (l : Landmarks) (i : nat) : Point :=
  nth i l (mkPoint 0 0).

(** Squared Euclidean distance between two landmarks. *)
Definition dist_sq (p q : Point) : Z :=
  (px q - px p) * (px q - px p) + (py q - py p) * (py q - py p).

(** A finger is extended when its tip is farther from the wrist than its
    proximal joint. *)
Definition finger_extended (l : Landmarks) (tip pip : nat) : bool :=
  dist_sq (landmark l 0) (landmark l pip) <? dist_sq (landmark l 0) (landmark l tip).

(** How many of index, middle, ring and pinky are extended. *)
Definition extended_fingers (l : Landmarks) : nat :=
  (Nat.b2n (finger_extended l 8 6) + Nat.b2n (finger_extended l 12 10) +
   Nat.b2n (finger_extended l 16 14) + Nat.b2n (finger_extended l 20 18))%nat.

(** The whole hand moved by the offset [(ox, oy)]. *)
Definition translate (ox oy : Z) (l : Landmarks) : Landmarks :=
  map (fun p => {| px := px p + ox; py := py p + oy |}) l.

(** Squared length of the vector from the wrist to the midpoint of the
    index and middle fingertips. *)
Definition midpoint_dist_sq (l : Landmarks) : Q :=
  let w := landmark l 0 in
  let i := landmark l 8 in
  let m := landmark l 12 in
  let vx := (inject_Z (px i + px m) / 2 - inject_Z (px w))%Q in
  let vy := (inject_Z (py i + py m) / 2 - inject_Z (py w))%Q in
  (vx * vx + vy * vy)%Q.

(** A hand given by its wrist and, for each of the four fingers, the joint
    and the tip; the remaining landmarks sit on the wrist. *)
Definition hand_of (w : Point) (pips tips : Point * Point * Point * Point)
  : Landmarks :=
  let '(p1, p2, p3, p4) := pips in
  let '(t1, t2, t3, t4) := tips in
  [w; w; w; w; w; w; p1; w; t1; w; p2; w; t2; w; p3; w; t3; w; p4; w; t4].

(** A closed fist: every landmark on the wrist. *)
Definition fist : Landmarks := repeat (mkPoint 50 50) 21.

(** Four fingers stretched one pixel past their joints, close to the wrist. *)
Definition short_fingers : Landmarks :=
  let j := mkPoint 1 0 in
  let t := mkPoint 2 0 in
  hand_of (mkPoint 0 0) (j, j, j, j) (t, t, t, t).

(** *** Timestamps *)

(** Every reading of [ts] comes more than [cd] after the one before it,
    the first more than [cd] after [t0]. *)
Fixpoint spaced (cd t0 : Q) (ts : list Q) : Prop :=
  match ts with
  | [] => True
  | t :: rest => (cd < t - t0)%Q /\ spaced cd t rest
  end.

(** *** Frames *)

(** The three components of what [stabilize] returns. *)
Definition state_of (r : State * option Action * option Action) : State :=
  fst (fst r).
Definition held_of (r : State * option Action * option Action)
  : option Action := snd (fst r).
Definition action_of (r : State * option Action * option Action)
  : option Action := snd r.

(** A hand that the classifier reads and that maps to no direction. *)
Definition neutral_hand (cfg : Config) (atan2_degrees : Q -> Q -> Q)
    (l : Landmarks) : Prop :=
  exists g, get_hand_gesture cfg atan2_degrees l = Ok g /\
            gesture_direction cfg g = None.

(** A frame with a hand in it, its two clock readings equal. *)
Definition hand_frame (lt : Landmarks * Q) : Frame :=
  {| frame_hands := Some (fst lt); frame_now1 := snd lt; frame_now2 := snd lt |}.

(** A configuration with a threshold too wide and a negative cooldown. *)
Definition colliding_config : Config :=
  {| DIRECTION_THRESHOLD := 50;
     MIN_CONFIDENCE_FRAMES := 1;
     COOLDOWN_SECONDS := - (1);
     STABILITY_THRESHOLD := 15 |}.

(** A configuration with another value of [MIN_CONFIDENCE_FRAMES]. *)
Definition with_min_confidence_frames (cfg : Config) (n : Z) : Config :=
  {| DIRECTION_THRESHOLD := DIRECTION_THRESHOLD cfg;
     MIN_CONFIDENCE_FRAMES := n;
     COOLDOWN_SECONDS := COOLDOWN_SECONDS cfg;
     STABILITY_THRESHOLD := STABILITY_THRESHOLD cfg |}.

(** ** The [while] loop of [main]

    What the loop takes from outside in one pass: whether [cap.read()]
    succeeded, what the detector finds in the frame, the two readings of
    the clock, and whether [cv2.waitKey(1)] returns the key [q].  What it
    does to the outside is a list of events: windows shown and keys sent.
    Drawing on the image is not modelled. *)

Record Capture : Type := mkCapture {
  cap_success : bool;
  cap_hands : option Landmarks;
  cap_now1 : Q;
  cap_now2 : Q;
  cap_quit : bool
}.

(** The two window titles: ["Hand Control (q=quit)"], used for frames that
    are skipped, and ["Hand Control"], used for frames that are processed. *)
Inductive Window : Type := HandControlQuit | HandControl.

(** [cv2.imshow(title, img)] and [send_key(key)]. *)
Inductive Event : Type :=
| ImShow (title : Window)
| SendKey (key : Action).

(** How the loop ends: [cap.read()] failed, [q] was pressed, the modulus
    [SKIP_FRAMES + 1] was zero, or the captures of the run are used up. *)
Inductive Exit : Type :=
| ReadFailed
| QuitPressed
| ZeroDivisionError
| OutOfCaptures.

Record LoopResult : Type := mkLoopResult {
  events : list Event;
  exit : Exit;
  final_count : Z;
  final_state : State
}.

Section MainLoop.

Variable cfg : Config.
Variable atan2_degrees : Q -> Q -> Q.
Variable SKIP_FRAMES : Z.

(** One pass, lines 149-235: the events, the reason to leave the loop if
    there is one, and the new values of [frame_count] and of the state. *)
Definition loop_pass (c : Capture) (frame_count : Z) (s : State)
  : list Event * option Exit * Z * State :=
  if negb (cap_success c) then ([], Some ReadFailed, frame_count, s)
  else
    let frame_count := frame_count + 1 in
    if SKIP_FRAMES + 1 =? 0 then ([], Some ZeroDivisionError, frame_count, s)
    else if negb (frame_count mod (SKIP_FRAMES + 1) =? 0) then
      ((if frame_count mod 4 =? 0 then [ImShow HandControlQuit] else []),
       (if cap_quit c then Some QuitPressed else None),
       frame_count, s)
    else
      let '(s', action) :=
        process_frame cfg atan2_degrees
          (cap_hands c) (cap_now1 c) (cap_now2 c) s in
      ((match action with Some key => [SendKey key] | None => [] end) ++
       (if frame_count mod 2 =? 0 then [ImShow HandControl] else []),
       (if cap_quit c then Some QuitPressed else None),
       frame_count, s').

Fixpoint main_loop (captures : list Capture) (frame_count : Z) (s : State)
  : LoopResult :=
  match captures with
  | [] => {| events := []; exit := OutOfCaptures;
             final_count := frame_count; final_state := s |}
  | c :: rest =>
      let '(ev, stop, frame_count', s') := loop_pass c frame_count s in
      match stop with
      | Some e => {| events := ev; exit := e;
                     final_count := frame_count'; final_state := s' |}
      | None =>
          let r := main_loop rest frame_count' s' in
          {| events := ev ++ events r; exit := exit r;
             final_count := final_count r; final_state := final_state r |}
      end
  end.

End MainLoop.

(** *** Vocabulary for the loop and for symmetries of the hand *)

(** The keys among the events, in order. *)
Fixpoint keys_sent (evs : list Event) : list Action :=
  match evs with
  | [] => []
  | SendKey key :: rest => key :: keys_sent rest
  | ImShow _ :: rest => keys_sent rest
  end.

(** The actions among the per-frame results of [run_frames], in order. *)
Fixpoint actions_sent (acts : list (option Action)) : list Action :=
  match acts with
  | [] => []
  | Some a :: rest => a :: actions_sent rest
  | None :: rest => actions_sent rest
  end.

(** Every second element: starting with the first one when [take] is
    [true], with the second one otherwise. *)
Fixpoint alternate {A : Type} (take : bool) (l : list A) : list A :=
  match l with
  | [] => []
  | x :: rest => if take then x :: alternate false rest
                 else alternate true rest
  end.

(** A capture seen as a frame of [run_frames]. *)
Definition frame_of_capture (c : Capture) : Frame :=
  {| frame_hands := cap_hands c;
     frame_now1 := cap_now1 c;
     frame_now2 := cap_now2 c |}.

(** A capture that neither fails nor ends the loop. *)
Definition plain_capture (c : Capture) : Prop :=
  cap_success c = true /\ cap_quit c = false.

(** A frame in which the classifier has nothing to read: no hand, or a hand
    with fewer than 21 landmarks. *)
Definition unreadable (hands : option Landmarks) : Prop :=
  match hands with
  | None => True
  | Some l => (length l < 21)%nat
  end.

(** The hand seen in a mirror: [x] becomes [w - x]. *)
Definition mirror (w : Z) (l : Landmarks) : Landmarks :=
  map (fun p => {| px := w - px p; py := py p |}) l.

(** The hand seen [k] times larger. *)
Definition scale (k : Z) (l : Landmarks) : Landmarks :=
  map (fun p => {| px := k * px p; py := k * py p |}) l.

(** The hand turned by a quarter of a turn about the origin. *)
Definition quarter_turn (l : Landmarks) : Landmarks :=
  map (fun p => {| px := - py p; py := px p |}) l.

(** [left] and [right] exchanged. *)
Definition swap_sides (d : option Action) : option Action :=
  match d with
  | Some left => Some right
  | Some right => Some left
  | other => other
  end.

(** Two raw gestures that differ at most in how the angle is written as a
    fraction. *)
Definition gesture_equiv (g1 g2 : RawGesture) : Prop :=
  match g1, g2 with
  | Roll, Roll => True
  | Ambiguous, Ambiguous => True
  | Angle a1, Angle a2 => (a1 == a2)%Q
  | _, _ => False
  end.

(** The same for the result of the classifier. *)
Definition result_equiv (r1 r2 : result RawGesture) : Prop :=
  match r1, r2 with
  | Ok g1, Ok g2 => gesture_equiv g1 g2
  | Raise e1, Raise e2 => e1 = e2
  | _, _ => False
  end.

(** A function of two rationals that does not look at how they are written
    as fractions. *)
Definition respects_Qeq (f : Q -> Q -> Q) : Prop :=
  forall x x' y y', (x == x')%Q -> (y == y')%Q -> (f x y == f x' y')%Q.

(** The two coordinates of the vector from the wrist to the midpoint of
    the index and middle fingertips. *)
Definition midpoint_dx (l : Landmarks) : Q :=
  (inject_Z (px (landmark l 8) + px (landmark l 12)) / 2
   - inject_Z (px (landmark l 0)))%Q.

Definition midpoint_dy (l : Landmarks) : Q :=
  (inject_Z (py (landmark l 8) + py (landmark l 12)) / 2
   - inject_Z (py (landmark l 0)))%Q.

(** *** Frames with a hand that shows a direction *)

(** A hand that the classifier reads and that maps to the direction [d]. *)
Definition shows_direction (cfg : Config) (atan2_degrees : Q -> Q -> Q)
    (l : Landmarks) (d : Action) : Prop :=
  exists g, get_hand_gesture cfg atan2_degrees l = Ok g /\
            gesture_direction cfg g = Some d.

(** [math.degrees(math.atan2(y, x))] for a vector along one of the two
    axes, where its value is a whole number of degrees: 0 or 180 on the
    horizontal axis (Python gives -180 for a negative zero [y]; the [% 360]
    of the classifier makes both 180), 90 or -90 on the vertical one.  It
    is meant for such vectors only. *)
Definition axis_atan2_degrees (y x : Q) : Q :=
  if Qeq_bool y 0 then (if Qltb x 0 then 180 else 0)%Q
  else if Qltb 0 y then 90%Q else (- (90))%Q.

(** An open hand pointing to the left of the image: the four fingertips
    40 pixels to the left of the wrist, the joints half way. *)
Definition pointing_left : Landmarks :=
  let j := mkPoint 80 50 in
  let t := mkPoint 60 50 in
  hand_of (mkPoint 100 50) (j, j, j, j) (t, t, t, t).

(** A state in which [left] is held and no key was sent yet. *)
Definition holding_left : State :=
  {| last_sent := last_sent initial_state; last_gesture := Some left |}.

(** The frames, among those with clock readings [ts], at which a key that
    was last sent at [last] goes out again: a frame sends when its reading
    is more than [cd] after the last time the key was sent, and is then the
    new last time. *)
Fixpoint resend_times (cd last : Q) (ts : list Q) : list bool :=
  match ts with
  | [] => []
  | t :: rest =>
      if Qltb cd (t - last)%Q then true :: resend_times cd t rest
      else false :: resend_times cd last rest
  end.

(** The action of a frame that sends [a], or sends nothing. *)
Definition resend (a : Action) (sends : bool) : option Action :=
  if sends then Some a else None.

(** ** Booleans of the model and the relations they decide *)

Lemma Qltb_lt (x y : Q) : Qltb x y = true <-> (x < y)%Q.
Proof. unfold Qltb, Qlt. apply Z.ltb_lt. Qed.

Lemma Qltb_ge (x y : Q) : Qltb x y = false <-> (y <= x)%Q.
Proof. unfold Qltb, Qle. apply Z.ltb_ge. Qed.

Lemma Qle_bool_false (x y : Q) : Qle_bool x y = false <-> (y < x)%Q.
Proof.
  split; intros H.
  - apply Qnot_le_lt. intros Hle. apply Qle_bool_iff in Hle. congruence.
  - destruct (Qle_bool x y) eqn:E; [| reflexivity].
    apply Qle_bool_iff in E. exfalso. apply (Qlt_not_le _ _ H E).
Qed.

(** Case analysis on every rational comparison in the goal, each case with
    the order fact it stands for among the hypotheses. *)
Ltac qcases :=
  repeat match goal with
    | |- context [Qle_bool ?x ?y] =>
        let E := fresh "E" in
        destruct (Qle_bool x y) eqn:E;
        [apply Qle_bool_iff in E | apply Qle_bool_false in E]
    | |- context [Qltb ?x ?y] =>
        let E := fresh "E" in
        destruct (Qltb x y) eqn:E;
        [apply Qltb_lt in E | apply Qltb_ge in E]
    end.

Lemma Action_eqb_eq (a b : Action) : Action_eqb a b = true <-> a = b.
Proof. destruct a, b; simpl; split; congruence. Qed.

Lemma Action_eqb_refl (a : Action) : Action_eqb a a = true.
Proof. destruct a; reflexivity. Qed.

Lemma direction_neb_false (a b : option Action) :
  direction_neb a b = false <-> a = b.
Proof.
  destruct a as [a|], b as [b|]; simpl; split; try congruence.
  - intros H. apply negb_false_iff, Action_eqb_eq in H. congruence.
  - intros H. injection H as ->. now rewrite Action_eqb_refl.
Qed.

Lemma direction_neb_true (a b : option Action) :
  direction_neb a b = true <-> a <> b.
Proof.
  rewrite <- direction_neb_false. destruct (direction_neb a b); split; congruence.
Qed.

Lemma py_mod_range (x m : Q) :
  (0 < m)%Q -> (0 <= py_mod x m /\ py_mod x m < m)%Q.
Proof.
  intros Hm. unfold py_mod.
  pose proof (Qfloor_le (x / m)) as Hlo.
  pose proof (Qlt_floor (x / m)) as Hhi.
  rewrite inject_Z_plus in Hhi.
  assert (Hx : (x == m * (x / m))%Q) by (field; lra).
  set (q := inject_Z (Qfloor (x / m))) in *.
  set (r := (x / m)%Q) in *.
  assert (H1 : (m * q <= m * r)%Q) by (apply Qmult_le_l; assumption).
  assert (H2 : (m * r < m * (q + inject_Z 1))%Q) by (apply Qmult_lt_l; assumption).
  assert (H3 : (m * (q + inject_Z 1) == m * q + m)%Q) by (change (inject_Z 1) with 1%Q; ring).
  rewrite H3 in H2. rewrite <- Hx in H1, H2. split; lra.
Qed.

Section Bands.

Variable cfg : Config.
Let th : Q := DIRECTION_THRESHOLD cfg.

Lemma bands_disjoint (a : Q) :
  (th < 45)%Q ->
  ~ (right_band th a /\ up_band th a) /\
  ~ (right_band th a /\ left_band th a) /\
  ~ (up_band th a /\ left_band th a).
Proof.
  intros Hth. unfold right_band, up_band, left_band, band.
  repeat split; intros H; lra.
Qed.

Lemma angle_to_direction_right (a : Q) :
  (0 <= a < 360)%Q ->
  (angle_to_direction cfg a = Some right <-> right_band th a).
Proof.
  intros Ha. unfold angle_to_direction, right_band, band. fold th.
  qcases; simpl; split; intros H; try discriminate; try reflexivity; lra.
Qed.

Lemma angle_to_direction_up (a : Q) :
  (th < 45)%Q ->
  (angle_to_direction cfg a = Some up <-> up_band th a).
Proof.
  intros Hth. unfold angle_to_direction, up_band, band. fold th.
  qcases; simpl; split; intros H; try discriminate; try reflexivity; lra.
Qed.

Lemma angle_to_direction_left (a : Q) :
  (th < 45)%Q ->
  (angle_to_direction cfg a = Some left <-> left_band th a).
Proof.
  intros Hth. unfold angle_to_direction, left_band, band. fold th.
  qcases; simpl; split; intros H; try discriminate; try reflexivity; lra.
Qed.

End Bands.

Lemma angle_to_direction_not_down (cfg : Config) (a : Q) :
  angle_to_direction cfg a <> Some down.
Proof.
  unfold angle_to_direction.
  destruct (_ || _); [discriminate |].
  destruct (_ && _); [discriminate |].
  destruct (_ && _); discriminate.
Qed.

(** The angle that the classifier hands out lies in [0, 360). *)
Lemma get_hand_gesture_angle_range (cfg : Config)
    (atan2_degrees : Q -> Q -> Q) (l : Landmarks) (a : Q) :
  get_hand_gesture cfg atan2_degrees l = Ok (Angle a) -> (0 <= a < 360)%Q.
Proof.
  unfold get_hand_gesture.
  destruct (is_roll_gesture l) as [[|] | e]; cbn [bind]; try discriminate.
  destruct (getitem l 0); cbn [bind]; try discriminate.
  destruct (getitem l 8); cbn [bind]; try discriminate.
  destruct (getitem l 12); cbn [bind]; try discriminate.
  destruct (Qltb _ _); try discriminate.
  intros H. injection H as <-. apply py_mod_range. reflexivity.
Qed.

(** C1.  With a half-width threshold below 45 degrees, the bands around
    0/360, 90 and 180 degrees are pairwise disjoint; the angles 0, 90 and
    180 map to [right], [up] and [left] (the half-width being at least 0);
    an angle of [0, 360), as every angle of the classifier is, that lies in
    none of the bands maps to [None]; and no angle maps to [down]. *)
Theorem angle_to_direction_bands (cfg : Config) :
  (DIRECTION_THRESHOLD cfg < 45)%Q ->
  let th := DIRECTION_THRESHOLD cfg in
  (forall a, ~ (right_band th a /\ up_band th a)) /\
  (forall a, ~ (right_band th a /\ left_band th a)) /\
  (forall a, ~ (up_band th a /\ left_band th a)) /\
  ((0 <= th)%Q ->
     (forall a, (a == 0)%Q -> angle_to_direction cfg a = Some right) /\
     (forall a, (a == 90)%Q -> angle_to_direction cfg a = Some up) /\
     (forall a, (a == 180)%Q -> angle_to_direction cfg a = Some left)) /\
  (forall atan2_degrees l a,
     get_hand_gesture cfg atan2_degrees l = Ok (Angle a) -> (0 <= a < 360)%Q) /\
  (forall a, (0 <= a < 360)%Q ->
     ~ right_band th a -> ~ up_band th a -> ~ left_band th a ->
     angle_to_direction cfg a = None) /\
  (forall a, angle_to_direction cfg a <> Some down).
Proof.
  intros H45 th. subst th.
  split; [intros a; apply (bands_disjoint cfg a H45) |].
  split; [intros a; apply (bands_disjoint cfg a H45) |].
  split; [intros a; apply (bands_disjoint cfg a H45) |].
  split; [| split; [| split]].
  - intros H0. split; [| split]; intros a Ha.
    + apply (angle_to_direction_right cfg a); [lra |].
      left. unfold band. lra.
    + apply (angle_to_direction_up cfg a H45). unfold up_band, band. lra.
    + apply (angle_to_direction_left cfg a H45). unfold left_band, band. lra.
  - apply get_hand_gesture_angle_range.
  - intros a Ha Hr Hu Hl.
    destruct (angle_to_direction cfg a) as [[| | |]|] eqn:E; [| | | | reflexivity].
    + exfalso. apply Hl, (angle_to_direction_left cfg a H45), E.
    + exfalso. apply Hr, (angle_to_direction_right cfg a Ha), E.
    + exfalso. apply Hu, (angle_to_direction_up cfg a H45), E.
    + exfalso. apply (angle_to_direction_not_down cfg a E).
  - intros a. apply angle_to_direction_not_down.
Qed.

Lemma angle_to_direction_bands_witness :
  (DIRECTION_THRESHOLD source_config < 45)%Q /\
  (0 <= DIRECTION_THRESHOLD source_config)%Q /\
  angle_to_direction source_config 0 = Some right /\
  angle_to_direction source_config 90 = Some up /\
  angle_to_direction source_config 180 = Some left /\
  angle_to_direction source_config 270 = None.
Proof.
  assert (H45 : (DIRECTION_THRESHOLD source_config < 45)%Q)
    by (vm_compute; reflexivity).
  assert (H0 : (0 <= DIRECTION_THRESHOLD source_config)%Q)
    by (vm_compute; discriminate).
  destruct (angle_to_direction_bands source_config H45)
    as (_ & _ & _ & Hc & _ & Hn & _).
  destruct (Hc H0) as (Hr & Hu & Hl).
  split; [exact H45 | split; [exact H0 |]].
  split; [apply Hr; reflexivity |].
  split; [apply Hu; reflexivity |].
  split; [apply Hl; reflexivity |].
  apply Hn; unfold right_band, up_band, left_band, band; simpl; lra.
Defined.

(** ** The classifier *)

Lemma getitem_in (l : Landmarks) (i : nat) :
  (i < length l)%nat -> getitem l i = Ok (landmark l i).
Proof.
  intros H. unfold getitem, landmark.
  now rewrite (nth_error_nth' l (mkPoint 0 0) H).
Qed.

Lemma getitem_out (l : Landmarks) (i : nat) :
  (length l <= i)%nat -> getitem l i = Raise IndexError.
Proof.
  intros H. unfold getitem. now rewrite (proj2 (nth_error_None l i) H).
Qed.

Lemma getitem_translate (ox oy : Z) (l : Landmarks) (i : nat) :
  getitem (translate ox oy l) i =
  (p <- getitem l i ;; Ok {| px := px p + ox; py := py p + oy |}).
Proof.
  unfold getitem, translate. rewrite nth_error_map.
  destruct (nth_error l i); reflexivity.
Qed.

Lemma landmark_translate (ox oy : Z) (l : Landmarks) (i : nat) :
  (i < length l)%nat ->
  landmark (translate ox oy l) i =
  {| px := px (landmark l i) + ox; py := py (landmark l i) + oy |}.
Proof.
  intros H.
  assert (H' : (i < length (translate ox oy l))%nat)
    by (unfold translate; now rewrite length_map).
  pose proof (getitem_translate ox oy l i) as E.
  rewrite (getitem_in _ _ H), (getitem_in _ _ H') in E.
  simpl in E. now injection E.
Qed.

Lemma dist_sq_shift (ox oy : Z) (p q : Point) :
  dist_sq {| px := px p + ox; py := py p + oy |}
          {| px := px q + ox; py := py q + oy |} = dist_sq p q.
Proof. unfold dist_sq. simpl. ring. Qed.

Lemma finger_extended_translate (ox oy : Z) (l : Landmarks) (tip pip : nat) :
  (0 < length l)%nat -> (tip < length l)%nat -> (pip < length l)%nat ->
  finger_extended (translate ox oy l) tip pip = finger_extended l tip pip.
Proof.
  intros H0 Ht Hp. unfold finger_extended.
  rewrite !landmark_translate by assumption.
  now rewrite !dist_sq_shift.
Qed.

Lemma extended_fingers_translate (ox oy : Z) (l : Landmarks) :
  length l = 21%nat ->
  extended_fingers (translate ox oy l) = extended_fingers l.
Proof.
  intros H. unfold extended_fingers.
  rewrite !finger_extended_translate by lia. reflexivity.
Qed.

Lemma count_fingers_translate (ox oy : Z) (l : Landmarks) (wx wy : Z)
    (pairs : list (nat * nat)) (acc : Z) :
  count_fingers (translate ox oy l) (wx + ox) (wy + oy) pairs acc =
  count_fingers l wx wy pairs acc.
Proof.
  revert acc. induction pairs as [| [tip pip] rest IH]; intros acc.
  - reflexivity.
  - cbn [count_fingers]. rewrite !getitem_translate.
    destruct (getitem l tip) as [t | e]; [| reflexivity].
    destruct (getitem l pip) as [p | e]; [| reflexivity].
    cbn [bind px py].
    replace (px t + ox - (wx + ox)) with (px t - wx) by ring.
    replace (py t + oy - (wy + oy)) with (py t - wy) by ring.
    replace (px p + ox - (wx + ox)) with (px p - wx) by ring.
    replace (py p + oy - (wy + oy)) with (py p - wy) by ring.
    apply IH.
Qed.

(** The fist test does not depend on where the hand is. *)
Lemma is_roll_gesture_translate (ox oy : Z) (l : Landmarks) :
  is_roll_gesture (translate ox oy l) = is_roll_gesture l.
Proof.
  unfold is_roll_gesture. rewrite getitem_translate.
  destruct (getitem l 0) as [w | e]; [| reflexivity].
  cbn [bind px py]. now rewrite count_fingers_translate.
Qed.

(** On a full hand the loop counts the extended fingers. *)
Lemma is_roll_gesture_count (l : Landmarks) :
  length l = 21%nat ->
  is_roll_gesture l = Ok (extended_fingers l <=? 2)%nat.
Proof.
  intros H. unfold is_roll_gesture, finger_pairs. cbn [count_fingers].
  rewrite !getitem_in by lia. cbn [bind].
  unfold extended_fingers, finger_extended, dist_sq.
  rewrite !Z.gtb_ltb, !Z.pow_2_r.
  repeat match goal with
    | |- context [(?a <? ?b)%Z] => destruct (a <? b)%Z
    end; reflexivity.
Qed.

Section ClassifierFacts.

Variable cfg : Config.
Variable atan2_degrees : Q -> Q -> Q.

Lemma get_hand_gesture_fist (l : Landmarks) :
  length l = 21%nat -> (extended_fingers l <= 2)%nat ->
  get_hand_gesture cfg atan2_degrees l = Ok Roll.
Proof.
  intros H Hc. unfold get_hand_gesture.
  rewrite (is_roll_gesture_count l H). cbn [bind].
  now rewrite (proj2 (Nat.leb_le _ _) Hc).
Qed.

(** Whether the answer is ['roll'] does not depend on where the hand is. *)
Lemma get_hand_gesture_roll_translate (ox oy : Z) (l : Landmarks) :
  get_hand_gesture cfg atan2_degrees (translate ox oy l) = Ok Roll <->
  get_hand_gesture cfg atan2_degrees l = Ok Roll.
Proof.
  unfold get_hand_gesture. rewrite is_roll_gesture_translate.
  destruct (is_roll_gesture l) as [[|] | e]; cbn [bind].
  - tauto.
  - rewrite !getitem_translate.
    destruct (getitem l 0); cbn [bind]; [| tauto].
    destruct (getitem l 8); cbn [bind]; [| tauto].
    destruct (getitem l 12); cbn [bind]; [| tauto].
    repeat match goal with
      | |- context [if ?b then _ else _] => destruct b
      end; split; discriminate.
  - tauto.
Qed.

(** With the fist test out of the way, a fingertip midpoint close to the
    wrist is read as no gesture. *)
Lemma get_hand_gesture_near (l : Landmarks) :
  length l = 21%nat -> (2 < extended_fingers l)%nat ->
  (midpoint_dist_sq l < STABILITY_THRESHOLD cfg * STABILITY_THRESHOLD cfg)%Q ->
  get_hand_gesture cfg atan2_degrees l = Ok Ambiguous.
Proof.
  intros H Hc Hd. unfold get_hand_gesture.
  rewrite (is_roll_gesture_count l H). cbn [bind].
  rewrite (proj2 (Nat.leb_gt _ _) Hc).
  rewrite !getitem_in by lia. cbn [bind].
  apply Qltb_lt in Hd. unfold midpoint_dist_sq in Hd.
  now rewrite Hd.
Qed.

End ClassifierFacts.

(** C2.  On a hand of 21 landmarks with at most two of the four fingers
    extended the classifier answers [Roll], and so it does, with the same
    count of extended fingers, wherever the hand is moved. *)
Theorem fist_is_roll (cfg : Config) (atan2_degrees : Q -> Q -> Q)
    (l : Landmarks) :
  length l = 21%nat ->
  (extended_fingers l <= 2)%nat ->
  get_hand_gesture cfg atan2_degrees l = Ok Roll /\
  forall ox oy : Z,
    extended_fingers (translate ox oy l) = extended_fingers l /\
    get_hand_gesture cfg atan2_degrees (translate ox oy l) = Ok Roll.
Proof.
  intros H Hc.
  pose proof (get_hand_gesture_fist cfg atan2_degrees l H Hc) as Hroll.
  split; [exact Hroll |].
  intros ox oy. split.
  - apply extended_fingers_translate, H.
  - apply get_hand_gesture_roll_translate, Hroll.
Qed.

Lemma fist_is_roll_witness :
  length fist = 21%nat /\ (extended_fingers fist <= 2)%nat /\
  get_hand_gesture source_config (fun _ _ => 0%Q) fist = Ok Roll /\
  get_hand_gesture source_config (fun _ _ => 0%Q) (translate 7 (-3) fist) = Ok Roll.
Proof.
  assert (H : length fist = 21%nat) by reflexivity.
  assert (Hc : (extended_fingers fist <= 2)%nat) by (vm_compute; lia).
  destruct (fist_is_roll source_config (fun _ _ => 0%Q) fist H Hc) as [Hr Ht].
  split; [exact H | split; [exact Hc | split; [exact Hr |]]].
  apply (Ht 7 (-3)).
Defined.

(** The fist test comes first: on a closed fist the fingertip midpoint is on
    the wrist, well inside the stability distance, and the answer is [Roll],
    not [Ambiguous]. *)
Lemma closed_fist_is_not_ambiguous :
  length fist = 21%nat /\
  (midpoint_dist_sq fist <
   STABILITY_THRESHOLD source_config * STABILITY_THRESHOLD source_config)%Q /\
  get_hand_gesture source_config (fun _ _ => 0%Q) fist = Ok Roll /\
  get_hand_gesture source_config (fun _ _ => 0%Q) fist <> Ok Ambiguous.
Proof.
  split; [reflexivity |].
  split; [vm_compute; reflexivity |].
  split; [vm_compute; reflexivity |].
  vm_compute. discriminate.
Qed.

(** C5, amended.  On a hand of 21 landmarks with at least three of the four
    fingers extended, a wrist-to-midpoint vector of squared length below
    [STABILITY_THRESHOLD] squared makes the classifier answer [Ambiguous];
    with at most two fingers extended it answers [Roll] whatever that
    length is. *)
Theorem near_wrist_is_ambiguous (cfg : Config) (atan2_degrees : Q -> Q -> Q)
    (l : Landmarks) :
  length l = 21%nat ->
  ((2 < extended_fingers l)%nat ->
   (midpoint_dist_sq l < STABILITY_THRESHOLD cfg * STABILITY_THRESHOLD cfg)%Q ->
   get_hand_gesture cfg atan2_degrees l = Ok Ambiguous) /\
  ((extended_fingers l <= 2)%nat ->
   get_hand_gesture cfg atan2_degrees l = Ok Roll).
Proof.
  intros H. split.
  - intros Hc Hd. apply get_hand_gesture_near; assumption.
  - intros Hc. apply get_hand_gesture_fist; assumption.
Qed.

Lemma near_wrist_is_ambiguous_witness :
  length short_fingers = 21%nat /\
  (midpoint_dist_sq short_fingers <
   STABILITY_THRESHOLD source_config * STABILITY_THRESHOLD source_config)%Q /\
  (2 < extended_fingers short_fingers)%nat /\
  get_hand_gesture source_config (fun _ _ => 0%Q) short_fingers = Ok Ambiguous.
Proof.
  assert (H : length short_fingers = 21%nat) by reflexivity.
  assert (Hd : (midpoint_dist_sq short_fingers <
                STABILITY_THRESHOLD source_config *
                STABILITY_THRESHOLD source_config)%Q)
    by (vm_compute; reflexivity).
  assert (Hc : (2 < extended_fingers short_fingers)%nat) by (vm_compute; lia).
  split; [exact H | split; [exact Hd | split; [exact Hc |]]].
  destruct (near_wrist_is_ambiguous source_config (fun _ _ => 0%Q)
              short_fingers H) as [Hnear _].
  exact (Hnear Hc Hd).
Defined.

(** ** Hands with too few or too many landmarks *)

Lemma count_fingers_short (l : Landmarks) (wx wy : Z)
    (pairs : list (nat * nat)) (acc : Z) :
  (exists tip pip, In (tip, pip) pairs /\
     ((length l <= tip)%nat \/ (length l <= pip)%nat)) ->
  count_fingers l wx wy pairs acc = Raise IndexError.
Proof.
  revert acc. induction pairs as [| [tip0 pip0] rest IH]; intros acc Hex.
  - destruct Hex as (? & ? & [] & _).
  - cbn [count_fingers]. unfold getitem at 1.
    destruct (nth_error l tip0) as [t |] eqn:Et; [| reflexivity].
    cbn [bind]. unfold getitem at 1.
    destruct (nth_error l pip0) as [p |] eqn:Ep; [| reflexivity].
    cbn [bind]. apply IH.
    destruct Hex as (tip & pip & [Heq | Hin] & Hlen).
    + injection Heq as <- <-. exfalso.
      assert (Ht : nth_error l tip0 <> None) by congruence.
      assert (Hp : nth_error l pip0 <> None) by congruence.
      apply nth_error_Some in Ht, Hp. lia.
    + exists tip, pip. split; assumption.
Qed.

Lemma is_roll_gesture_short (l : Landmarks) :
  (length l < 21)%nat -> is_roll_gesture l = Raise IndexError.
Proof.
  intros H. unfold is_roll_gesture, getitem at 1.
  destruct (nth_error l 0); [| reflexivity].
  cbn [bind]. rewrite count_fingers_short; [reflexivity |].
  exists 20%nat, 18%nat. split; [| left; lia].
  unfold finger_pairs. simpl. tauto.
Qed.

Lemma getitem_firstn (n : nat) (l : Landmarks) (i : nat) :
  (i < n)%nat -> getitem (firstn n l) i = getitem l i.
Proof.
  intros H. unfold getitem. rewrite nth_error_firstn.
  now rewrite (proj2 (Nat.ltb_lt i n) H).
Qed.

Lemma count_fingers_firstn (n : nat) (l : Landmarks) (wx wy : Z)
    (pairs : list (nat * nat)) (acc : Z) :
  (forall tip pip, In (tip, pip) pairs -> (tip < n)%nat /\ (pip < n)%nat) ->
  count_fingers (firstn n l) wx wy pairs acc = count_fingers l wx wy pairs acc.
Proof.
  revert acc. induction pairs as [| [tip pip] rest IH]; intros acc Hin.
  - reflexivity.
  - cbn [count_fingers].
    destruct (Hin tip pip (or_introl eq_refl)) as [Ht Hp].
    rewrite !getitem_firstn by assumption.
    destruct (getitem l tip); [| reflexivity].
    destruct (getitem l pip); [| reflexivity].
    cbn [bind]. apply IH. intros t p H. apply Hin. now right.
Qed.

Lemma is_roll_gesture_firstn (l : Landmarks) :
  is_roll_gesture (firstn 21 l) = is_roll_gesture l.
Proof.
  unfold is_roll_gesture. rewrite getitem_firstn by lia.
  destruct (getitem l 0) as [w | e]; [| reflexivity].
  cbn [bind]. rewrite count_fingers_firstn; [reflexivity |].
  unfold finger_pairs. simpl. intros tip pip H.
  repeat (destruct H as [H | H]; [injection H as <- <-; lia |]).
  destruct H.
Qed.

Section MalformedHands.

Variable cfg : Config.
Variable atan2_degrees : Q -> Q -> Q.

Lemma get_hand_gesture_short (l : Landmarks) :
  (length l < 21)%nat ->
  get_hand_gesture cfg atan2_degrees l = Raise IndexError.
Proof.
  intros H. unfold get_hand_gesture.
  now rewrite (is_roll_gesture_short l H).
Qed.

(** Only the landmarks 0 to 20 are read. *)
Lemma get_hand_gesture_firstn (l : Landmarks) :
  get_hand_gesture cfg atan2_degrees (firstn 21 l) =
  get_hand_gesture cfg atan2_degrees l.
Proof.
  unfold get_hand_gesture. rewrite is_roll_gesture_firstn.
  now rewrite !getitem_firstn by lia.
Qed.

Lemma get_hand_gesture_total (l : Landmarks) :
  (21 <= length l)%nat ->
  exists g, get_hand_gesture cfg atan2_degrees l = Ok g.
Proof.
  intros H. unfold get_hand_gesture, is_roll_gesture, finger_pairs.
  cbn [count_fingers]. rewrite !getitem_in by lia. cbn [bind].
  repeat match goal with
    | |- context [if ?b then _ else _] => destruct b
    end; eexists; reflexivity.
Qed.

End MalformedHands.

(** A hand of 22 landmarks is classified like any other. *)
Lemma long_hand_is_classified :
  length (fist ++ [mkPoint 0 0]) = 22%nat /\
  get_hand_gesture source_config (fun _ _ => 0%Q) (fist ++ [mkPoint 0 0]) =
    Ok Roll /\
  get_hand_gesture source_config (fun _ _ => 0%Q) (fist ++ [mkPoint 0 0]) <>
    Raise InvalidInput.
Proof.
  split; [reflexivity |]. split; [vm_compute; reflexivity |].
  vm_compute. discriminate.
Qed.

(** C7, amended.  A hand with fewer than 21 landmarks makes the classifier
    raise [IndexError]; the loop swallows it and the frame ends like one
    without a hand: state untouched, nothing sent.  A hand with 21 landmarks
    or more is classified, from its landmarks 0 to 20 alone. *)
Theorem malformed_hand (cfg : Config) (atan2_degrees : Q -> Q -> Q)
    (l : Landmarks) :
  ((length l < 21)%nat ->
     get_hand_gesture cfg atan2_degrees l = Raise IndexError /\
     forall now1 now2 s,
       process_frame cfg atan2_degrees (Some l) now1 now2 s = (s, None) /\
       process_frame cfg atan2_degrees (Some l) now1 now2 s =
       process_frame cfg atan2_degrees None now1 now2 s) /\
  ((21 <= length l)%nat ->
     exists g,
       get_hand_gesture cfg atan2_degrees l = Ok g /\
       get_hand_gesture cfg atan2_degrees (firstn 21 l) = Ok g).
Proof.
  split; intros H.
  - pose proof (get_hand_gesture_short cfg atan2_degrees l H) as E.
    split; [exact E |].
    intros now1 now2 s. unfold process_frame, try_body.
    rewrite E. cbn [bind]. split; reflexivity.
  - destruct (get_hand_gesture_total cfg atan2_degrees l H) as [g E].
    exists g. split; [exact E |].
    now rewrite get_hand_gesture_firstn.
Qed.

Lemma malformed_hand_witness :
  (length (firstn 9 fist) < 21)%nat /\
  process_frame source_config (fun _ _ => 0%Q) (Some (firstn 9 fist)) 1 1
    initial_state = (initial_state, None).
Proof.
  assert (H : (length (firstn 9 fist) < 21)%nat) by (vm_compute; lia).
  split; [exact H |].
  destruct (malformed_hand source_config (fun _ _ => 0%Q) (firstn 9 fist))
    as [Hshort _].
  destruct (Hshort H) as [_ Hframe].
  apply (Hframe 1%Q 1%Q initial_state).
Defined.

(** ** The stabilizer *)

Lemma sent_store_store (ls : LastSent) (d : Action) (t : Q) :
  sent_store (sent_store ls d t) d t = sent_store ls d t.
Proof. destruct d; reflexivity. Qed.

Lemma sent_at_store (ls : LastSent) (d : Action) (t : Q) :
  sent_at (sent_store ls d t) d = t.
Proof. destruct d; reflexivity. Qed.

Lemma sent_at_store_other (ls : LastSent) (d k : Action) (t : Q) :
  d <> k -> sent_at (sent_store ls d t) k = sent_at ls k.
Proof. destruct d, k; intros H; try reflexivity; congruence. Qed.

Lemma stability_check_new (d : Action) (lg : option Action) :
  stability_check (Some d) lg = (Some d, Some d).
Proof.
  unfold stability_check.
  destruct (direction_neb (Some d) lg) eqn:E; [reflexivity |].
  apply direction_neb_false in E. now subst lg.
Qed.

Lemma stability_check_lost (g : Action) :
  stability_check None (Some g) = (Some g, Some g).
Proof. reflexivity. Qed.

Lemma stability_check_keeps (d lg : option Action) :
  lg <> None -> snd (stability_check d lg) <> None.
Proof.
  intros H. unfold stability_check.
  destruct (direction_neb d lg), d, lg; simpl; congruence.
Qed.

Section StabilizerFacts.

Variable cfg : Config.

(** The second cooldown test changes nothing when the clock shows the
    same reading. *)
Lemma send_check_twice (d : option Action) (now : Q) (ls : LastSent) :
  send_check cfg d now (send_check cfg d now (ls, None)) =
  send_check cfg d now (ls, None).
Proof.
  destruct d as [d |]; [| reflexivity]. unfold send_check. cbn [fst].
  destruct (Qltb (COOLDOWN_SECONDS cfg) (now - sent_at ls d)) eqn:E; cbn [fst].
  - clear E.
    destruct (Qltb _ _); [| reflexivity]. now rewrite sent_store_store.
  - now rewrite E.
Qed.

Lemma stabilize_single_reading (direction : option Action) (now : Q)
    (s : State) :
  stabilize cfg direction now now s = stabilize_once cfg direction now s.
Proof.
  unfold stabilize, stabilize_once.
  destruct (stability_check direction (last_gesture s)) as [d' lg'].
  now rewrite send_check_twice.
Qed.

Lemma send_check_emits (d : Action) (now : Q) (ls : LastSent) :
  (COOLDOWN_SECONDS cfg < now - sent_at ls d)%Q ->
  send_check cfg (Some d) now (ls, None) = (sent_store ls d now, Some d).
Proof.
  intros H. unfold send_check. cbn [fst].
  now rewrite (proj2 (Qltb_lt _ _) H).
Qed.

Lemma send_check_holds (d : Action) (now : Q) (ls : LastSent) :
  (now - sent_at ls d <= COOLDOWN_SECONDS cfg)%Q ->
  send_check cfg (Some d) now (ls, None) = (ls, None).
Proof.
  intros H. unfold send_check. cbn [fst].
  now rewrite (proj2 (Qltb_ge _ _) H).
Qed.

(** A frame whose candidate is a direction. *)
Lemma stabilize_direction (d : Action) (now : Q) (s : State) :
  stabilize cfg (Some d) now now s =
  (if Qltb (COOLDOWN_SECONDS cfg) (now - sent_at (last_sent s) d)
   then ({| last_sent := sent_store (last_sent s) d now;
            last_gesture := Some d |}, Some d, Some d)
   else ({| last_sent := last_sent s; last_gesture := Some d |},
         Some d, None)).
Proof.
  rewrite stabilize_single_reading. unfold stabilize_once.
  rewrite stability_check_new. unfold send_check. cbn [fst].
  destruct (Qltb _ _); reflexivity.
Qed.

(** A frame without a candidate while a direction is held. *)
Lemma stabilize_lost (g : Action) (now : Q) (s : State) :
  last_gesture s = Some g ->
  stabilize cfg None now now s = stabilize cfg (Some g) now now s.
Proof.
  intros H. rewrite !stabilize_single_reading. unfold stabilize_once.
  now rewrite H, stability_check_lost, stability_check_new.
Qed.

(** A frame without a candidate while nothing is held. *)
Lemma stabilize_idle (now1 now2 : Q) (s : State) :
  last_gesture s = None ->
  stabilize cfg None now1 now2 s =
  ({| last_sent := last_sent s; last_gesture := None |}, None, None).
Proof. intros H. unfold stabilize. now rewrite H. Qed.

(** With two readings in order, the second one decides whether the key is
    sent. *)
Lemma stabilize_two_readings (d : Action) (now1 now2 : Q) (s : State) :
  (now1 <= now2)%Q ->
  (action_of (stabilize cfg (Some d) now1 now2 s) = Some d <->
   (COOLDOWN_SECONDS cfg < now2 - sent_at (last_sent s) d)%Q).
Proof.
  intros Hle. unfold stabilize, action_of.
  rewrite stability_check_new. unfold send_check. cbn [fst].
  destruct (Qltb (COOLDOWN_SECONDS cfg) (now1 - sent_at (last_sent s) d))
    eqn:E1; cbn [fst].
  - apply Qltb_lt in E1.
    destruct (Qltb _ _); cbn [snd]; split; intros _; try reflexivity; lra.
  - apply Qltb_ge in E1.
    destruct (Qltb (COOLDOWN_SECONDS cfg) (now2 - sent_at (last_sent s) d))
      eqn:E2; cbn [snd].
    + apply Qltb_lt in E2. tauto.
    + apply Qltb_ge in E2. split; [discriminate | lra].
Qed.

End StabilizerFacts.

(** A frame whose candidate is a direction adopts it. *)
Lemma stabilize_adopts (cfg : Config) (d : Action) (now1 now2 : Q)
    (s : State) :
  last_gesture (state_of (stabilize cfg (Some d) now1 now2 s)) = Some d /\
  held_of (stabilize cfg (Some d) now1 now2 s) = Some d.
Proof.
  unfold stabilize. rewrite stability_check_new.
  destruct (send_check _ _ _ _) as [ls act]. split; reflexivity.
Qed.

(** A frame without a candidate takes the held direction. *)
Lemma stabilize_sticks (cfg : Config) (g : Action) (now1 now2 : Q)
    (s : State) :
  last_gesture s = Some g ->
  held_of (stabilize cfg None now1 now2 s) = Some g /\
  last_gesture (state_of (stabilize cfg None now1 now2 s)) = Some g.
Proof.
  intros H. unfold stabilize. rewrite H, stability_check_lost.
  destruct (send_check _ _ _ _) as [ls act]. split; reflexivity.
Qed.

Lemma run_directions_holds_left (cfg : Config) (s : State) (t2 t3 : Q) :
  last_gesture s = Some left ->
  map fst (snd (run_directions cfg [(None, t2); (Some left, t3)] s)) =
  [Some left; Some left].
Proof.
  intros H. cbn [run_directions].
  destruct (stabilize_sticks cfg left t2 t2 s H) as [Hh2 Hs2].
  destruct (stabilize cfg None t2 t2 s) as [[s2 h2] a2].
  unfold held_of, state_of in Hh2, Hs2. cbn [fst snd] in Hh2, Hs2.
  destruct (stabilize_adopts cfg left t3 t3 s2) as [_ Hh3].
  destruct (stabilize cfg (Some left) t3 t3 s2) as [[s3 h3] a3].
  unfold held_of in Hh3. cbn [fst snd] in Hh3.
  cbn [map fst snd]. now subst.
Qed.

Lemma run_directions_left_none_left (cfg : Config) (s : State)
    (t1 t2 t3 : Q) :
  map fst (snd (run_directions cfg
                  [(Some left, t1); (None, t2); (Some left, t3)] s)) =
  [Some left; Some left; Some left].
Proof.
  change [(Some left, t1); (None, t2); (Some left, t3)]
    with ((Some left, t1) :: [(None, t2); (Some left, t3)]).
  cbn [run_directions].
  destruct (stabilize_adopts cfg left t1 t1 s) as [Hs1 Hh1].
  destruct (stabilize cfg (Some left) t1 t1 s) as [[s1 h1] a1].
  unfold held_of, state_of in Hh1, Hs1. cbn [fst snd] in Hh1, Hs1.
  pose proof (run_directions_holds_left cfg s1 t2 t3 Hs1) as Ht.
  cbn [run_directions] in Ht.
  destruct (stabilize cfg None t2 t2 s1) as [[s2 h2] a2].
  destruct (stabilize cfg (Some left) t3 t3 s2) as [[s3 h3] a3].
  cbn [map fst snd] in *. now rewrite Hh1, Ht.
Qed.

(** C4.  In a frame with clock reading [now] whose direction after the
    stability check is [held]: the action [a] is sent exactly when [held] is
    [a] and [now - last_sent[a]] exceeds the cooldown; sending [a] stores
    [now] under [a] and nothing else; a frame that sends nothing, and so
    every frame without a direction, leaves [last_sent] as it was.  The
    clocks are per action: after a frame that sends [a], a frame for another
    action [b] whose own cooldown has passed sends [b], whatever the time
    between the two. *)
Theorem cooldown_rule (cfg : Config) :
  (forall (direction : option Action) (now : Q) (s s' : State)
          (held action : option Action),
     stabilize cfg direction now now s = (s', held, action) ->
     (forall a, action = Some a <->
                held = Some a /\
                (COOLDOWN_SECONDS cfg < now - sent_at (last_sent s) a)%Q) /\
     (forall a, action = Some a ->
                last_sent s' = sent_store (last_sent s) a now /\
                sent_at (last_sent s') a = now /\
                forall k, k <> a ->
                  sent_at (last_sent s') k = sent_at (last_sent s) k) /\
     (action = None -> last_sent s' = last_sent s) /\
     (held = None -> action = None /\ last_sent s' = last_sent s)) /\
  (forall (a b : Action) (ta tb : Q) (s : State),
     a <> b ->
     (COOLDOWN_SECONDS cfg < ta - sent_at (last_sent s) a)%Q ->
     (COOLDOWN_SECONDS cfg < tb - sent_at (last_sent s) b)%Q ->
     map snd (snd (run_directions cfg [(Some a, ta); (Some b, tb)] s)) =
     [Some a; Some b]).
Proof.
  split.
  - intros direction now s s' held action E.
    rewrite stabilize_single_reading in E. unfold stabilize_once in E.
    destruct (stability_check direction (last_gesture s)) as [d' lg'].
    destruct d' as [d |].
    + unfold send_check in E. cbn [fst] in E.
      destruct (Qltb (COOLDOWN_SECONDS cfg) (now - sent_at (last_sent s) d))
        eqn:Ecd; injection E as <- <- <-; cbn [last_sent].
      * apply Qltb_lt in Ecd.
        split; [| split; [| split]].
        -- intros a. split.
           ++ intros H. injection H as <-. now split.
           ++ intros [H _]. exact H.
        -- intros a H. injection H as <-.
           split; [reflexivity |]. split; [apply sent_at_store |].
           intros k Hk. apply sent_at_store_other. congruence.
        -- discriminate.
        -- discriminate.
      * apply Qltb_ge in Ecd.
        split; [| split; [| split]].
        -- intros a. split; [discriminate |].
           intros [H Hlt]. injection H as <-. lra.
        -- discriminate.
        -- reflexivity.
        -- discriminate.
    + cbn [send_check] in E. injection E as <- <- <-. cbn [last_sent].
      split; [| split; [| split]].
      * intros a. split; [discriminate |]. intros [H _]. discriminate.
      * discriminate.
      * reflexivity.
      * intros _. split; reflexivity.
  - intros a b ta tb s Hab Ha Hb. cbn [run_directions].
    rewrite (stabilize_direction cfg a ta s), (proj2 (Qltb_lt _ _) Ha).
    rewrite stabilize_direction. cbn [last_sent].
    rewrite (sent_at_store_other _ a b ta Hab), (proj2 (Qltb_lt _ _) Hb).
    reflexivity.
Qed.

Lemma cooldown_rule_witness :
  left <> right /\
  (COOLDOWN_SECONDS source_config < 10 - sent_at (last_sent initial_state) left)%Q /\
  (COOLDOWN_SECONDS source_config <
   (1001 # 100) - sent_at (last_sent initial_state) right)%Q /\
  map snd (snd (run_directions source_config
                  [(Some left, 10%Q); (Some right, 1001 # 100)] initial_state)) =
  [Some left; Some right] /\
  (action_of (stabilize source_config (Some up) 10 10 initial_state) = Some up <->
   Some up = Some up /\
   (COOLDOWN_SECONDS source_config <
    10 - sent_at (last_sent initial_state) up)%Q).
Proof.
  destruct (cooldown_rule source_config) as [Hframe Hpair].
  assert (Hd : left <> right) by discriminate.
  assert (Ha : (COOLDOWN_SECONDS source_config <
                10 - sent_at (last_sent initial_state) left)%Q)
    by (vm_compute; reflexivity).
  assert (Hb : (COOLDOWN_SECONDS source_config <
                (1001 # 100) - sent_at (last_sent initial_state) right)%Q)
    by (vm_compute; reflexivity).
  split; [exact Hd | split; [exact Ha | split; [exact Hb | split]]].
  - apply (Hpair left right 10%Q (1001 # 100) initial_state Hd Ha Hb).
  - assert (E : stabilize source_config (Some up) 10 10 initial_state =
                (state_of (stabilize source_config (Some up) 10 10 initial_state),
                 Some up, Some up)) by (vm_compute; reflexivity).
    destruct (Hframe _ _ _ _ _ _ E) as (Hiff & _).
    rewrite E. unfold action_of. cbn [snd]. apply (Hiff up).
Defined.

(** C9.  With one clock reading for the frame, running the cooldown test
    twice, as the loop does, gives the state, the direction and the action
    that running it once gives. *)
Theorem duplicate_check_is_redundant (cfg : Config)
    (direction : option Action) (now : Q) (s : State) :
  stabilize cfg direction now now s = stabilize_once cfg direction now s /\
  last_sent (state_of (stabilize cfg direction now now s)) =
    last_sent (state_of (stabilize_once cfg direction now s)) /\
  last_gesture (state_of (stabilize cfg direction now now s)) =
    last_gesture (state_of (stabilize_once cfg direction now s)) /\
  action_of (stabilize cfg direction now now s) =
    action_of (stabilize_once cfg direction now s).
Proof.
  rewrite stabilize_single_reading. repeat split.
Qed.

(** ** Whole frames *)

Section FrameFacts.

Variable cfg : Config.
Variable atan2_degrees : Q -> Q -> Q.

(** A frame whose hand the classifier reads is a step of the stabilizer. *)
Lemma process_frame_classified (l : Landmarks) (g : RawGesture)
    (now1 now2 : Q) (s : State) :
  get_hand_gesture cfg atan2_degrees l = Ok g ->
  process_frame cfg atan2_degrees (Some l) now1 now2 s =
  (state_of (stabilize cfg (gesture_direction cfg g) now1 now2 s),
   action_of (stabilize cfg (gesture_direction cfg g) now1 now2 s)).
Proof.
  intros H. unfold process_frame, try_body. rewrite H. cbn [bind].
  now destruct (stabilize _ _ _ _ _) as [[s' h] a].
Qed.

Lemma stabilize_keeps_gesture (direction : option Action) (now1 now2 : Q)
    (s : State) :
  last_gesture s <> None ->
  last_gesture (state_of (stabilize cfg direction now1 now2 s)) <> None.
Proof.
  intros H. unfold stabilize.
  pose proof (stability_check_keeps direction (last_gesture s) H) as K.
  destruct (stability_check direction (last_gesture s)) as [d' lg'].
  destruct (send_check _ _ _ _) as [ls act]. exact K.
Qed.

Lemma process_frame_keeps_gesture (hands : option Landmarks)
    (now1 now2 : Q) (s : State) :
  last_gesture s <> None ->
  last_gesture (fst (process_frame cfg atan2_degrees hands now1 now2 s))
    <> None.
Proof.
  intros H. destruct hands as [l |]; [| exact H].
  destruct (get_hand_gesture cfg atan2_degrees l) as [g | e] eqn:E.
  - rewrite (process_frame_classified l g now1 now2 s E). cbn [fst].
    now apply stabilize_keeps_gesture.
  - unfold process_frame, try_body. rewrite E. exact H.
Qed.

Lemma run_frames_keeps_gesture (frames : list Frame) (s : State) :
  last_gesture s <> None ->
  last_gesture (fst (run_frames cfg atan2_degrees frames s)) <> None.
Proof.
  revert s. induction frames as [| f rest IH]; intros s H; [exact H |].
  cbn [run_frames].
  pose proof (process_frame_keeps_gesture (frame_hands f) (frame_now1 f)
                (frame_now2 f) s H) as K.
  destruct (process_frame _ _ _ _ _ _) as [s1 a1]. cbn [fst] in K.
  specialize (IH s1 K).
  now destruct (run_frames cfg atan2_degrees rest s1) as [s2 acts].
Qed.

(** One frame of a neutral hand while [a] is held and its cooldown has
    passed: [a] is sent again. *)
Lemma neutral_frame_resends (l : Landmarks) (a : Action) (t : Q) (s : State) :
  neutral_hand cfg atan2_degrees l ->
  last_gesture s = Some a ->
  (COOLDOWN_SECONDS cfg < t - sent_at (last_sent s) a)%Q ->
  process_frame cfg atan2_degrees (Some l) t t s =
  ({| last_sent := sent_store (last_sent s) a t; last_gesture := Some a |},
   Some a).
Proof.
  intros (g & Hg & Hd) Hs Hcd.
  rewrite (process_frame_classified l g t t s Hg), Hd.
  rewrite (stabilize_lost cfg a t s Hs), stabilize_direction.
  now rewrite (proj2 (Qltb_lt _ _) Hcd).
Qed.

Lemma neutral_run_resends (a : Action) (fs : list (Landmarks * Q)) :
  forall s : State,
    last_gesture s = Some a ->
    Forall (fun lt => neutral_hand cfg atan2_degrees (fst lt)) fs ->
    spaced (COOLDOWN_SECONDS cfg) (sent_at (last_sent s) a) (map snd fs) ->
    last_gesture (fst (run_frames cfg atan2_degrees (map hand_frame fs) s))
      = Some a /\
    snd (run_frames cfg atan2_degrees (map hand_frame fs) s) =
      map (fun _ => Some a) fs.
Proof.
  induction fs as [| [l t] rest IH]; intros s Hs Hall Hsp.
  - split; [exact Hs | reflexivity].
  - inversion Hall as [| ? ? Hl Hrest]; subst.
    destruct Hsp as [Hcd Hsp]. cbn [fst snd] in Hl, Hcd.
    cbn [map run_frames hand_frame frame_hands frame_now1 frame_now2 fst snd].
    rewrite (neutral_frame_resends l a t s Hl Hs Hcd).
    set (s1 := {| last_sent := sent_store (last_sent s) a t;
                  last_gesture := Some a |}).
    destruct (IH s1 eq_refl Hrest) as [IH1 IH2].
    { subst s1. cbn [last_sent]. now rewrite sent_at_store. }
    destruct (run_frames cfg atan2_degrees (map hand_frame rest) s1)
      as [s2 acts].
    cbn [fst snd] in *. split; [exact IH1 | now rewrite IH2].
Qed.

End FrameFacts.

(** ** Configuration values that are never looked at *)

(** With [MIN_CONFIDENCE_FRAMES] at 3, the first frame that reads [left]
    adopts it, and sends it. *)
Lemma one_frame_adopts_despite_min_confidence :
  let cfg := with_min_confidence_frames source_config 3 in
  MIN_CONFIDENCE_FRAMES cfg = 3 /\
  last_gesture initial_state = None /\
  last_gesture (state_of (stabilize cfg (Some left) 10 10 initial_state)) =
    Some left /\
  action_of (stabilize cfg (Some left) 10 10 initial_state) = Some left.
Proof.
  intros cfg. repeat split; vm_compute; reflexivity.
Qed.

(** C8, amended.  The value of [MIN_CONFIDENCE_FRAMES] has no effect: a
    frame is processed the same way under every value of it, and a new
    direction is adopted in the frame that first shows it. *)
Theorem min_confidence_frames_is_unused (cfg : Config)
    (atan2_degrees : Q -> Q -> Q) (n : Z) :
  (forall hands now1 now2 s,
     process_frame (with_min_confidence_frames cfg n) atan2_degrees
       hands now1 now2 s =
     process_frame cfg atan2_degrees hands now1 now2 s) /\
  (forall direction now1 now2 s,
     stabilize (with_min_confidence_frames cfg n) direction now1 now2 s =
     stabilize cfg direction now1 now2 s) /\
  (forall d now1 now2 s,
     last_gesture s <> Some d ->
     last_gesture
       (state_of (stabilize (with_min_confidence_frames cfg n)
                    (Some d) now1 now2 s)) = Some d).
Proof.
  split; [| split].
  - reflexivity.
  - reflexivity.
  - intros d now1 now2 s _. unfold stabilize. rewrite stability_check_new.
    now destruct (send_check _ _ _ _) as [ls act].
Qed.

Lemma min_confidence_frames_is_unused_witness :
  last_gesture initial_state <> Some right /\
  last_gesture
    (state_of (stabilize (with_min_confidence_frames source_config 5)
                 (Some right) 1 1 initial_state)) = Some right.
Proof.
  assert (H : last_gesture initial_state <> Some right) by discriminate.
  split; [exact H |].
  destruct (min_confidence_frames_is_unused source_config (fun _ _ => 0%Q) 5)
    as (_ & _ & Hadopt).
  apply (Hadopt right 1%Q 1%Q initial_state H).
Defined.

(** A threshold of 50 degrees and a cooldown of -1 second start the loop
    like any other values; the angle 45 then lies in two bands. *)
Lemma colliding_config_is_accepted :
  (45 <= DIRECTION_THRESHOLD colliding_config)%Q /\
  (COOLDOWN_SECONDS colliding_config < 0)%Q /\
  main_init colliding_config = Ok initial_state /\
  main_init colliding_config <> Raise ConfigurationError /\
  angle_to_direction colliding_config 45 = Some right.
Proof.
  split; [vm_compute; discriminate |].
  split; [vm_compute; reflexivity |].
  split; [reflexivity |].
  split; [discriminate | vm_compute; reflexivity].
Qed.

(** C6, amended.  No configuration value is rejected.  The loop starts from
    the same state under every configuration; a threshold of 45 degrees or
    more is used as it is, the angle 45 then lying in the [right] and the
    [up] band and mapping to [right]; a negative cooldown is used as it is,
    every frame with a direction then sending it unless the last emission is
    dated later than the frame. *)
Theorem configuration_is_not_checked (cfg : Config) :
  main_init cfg = Ok initial_state /\
  ((45 <= DIRECTION_THRESHOLD cfg)%Q ->
     right_band (DIRECTION_THRESHOLD cfg) 45 /\
     up_band (DIRECTION_THRESHOLD cfg) 45 /\
     angle_to_direction cfg 45 = Some right) /\
  ((COOLDOWN_SECONDS cfg < 0)%Q ->
     forall (a : Action) (now : Q) (s : State),
       (sent_at (last_sent s) a <= now)%Q ->
       action_of (stabilize cfg (Some a) now now s) = Some a).
Proof.
  split; [reflexivity |]. split.
  - intros H. unfold right_band, up_band, band, angle_to_direction.
    split; [left; lra |]. split; [lra |].
    now rewrite (proj2 (Qle_bool_iff _ _) H).
  - intros H a now s Hle. rewrite stabilize_direction.
    assert (Hcd : (COOLDOWN_SECONDS cfg < now - sent_at (last_sent s) a)%Q) by lra.
    now rewrite (proj2 (Qltb_lt _ _) Hcd).
Qed.

Lemma configuration_is_not_checked_witness :
  (45 <= DIRECTION_THRESHOLD colliding_config)%Q /\
  (COOLDOWN_SECONDS colliding_config < 0)%Q /\
  angle_to_direction colliding_config 45 = Some right /\
  action_of (stabilize colliding_config (Some up) 0 0 initial_state) = Some up.
Proof.
  assert (H45 : (45 <= DIRECTION_THRESHOLD colliding_config)%Q)
    by (vm_compute; discriminate).
  assert (Hcd : (COOLDOWN_SECONDS colliding_config < 0)%Q)
    by (vm_compute; reflexivity).
  destruct (configuration_is_not_checked colliding_config) as (_ & Hth & Hneg).
  split; [exact H45 | split; [exact Hcd | split]].
  - apply (Hth H45).
  - apply (Hneg Hcd up 0%Q initial_state). vm_compute. discriminate.
Defined.

(** ** Further facts about the stabilizer *)

(** After the stability check the direction of the frame and
    [last_gesture] are the same value. *)
Lemma stability_check_agree (d lg : option Action) :
  fst (stability_check d lg) = snd (stability_check d lg).
Proof.
  unfold stability_check.
  destruct (direction_neb d lg) eqn:E.
  - destruct d, lg; reflexivity.
  - apply direction_neb_false in E. now subst.
Qed.

Lemma send_check_action (cfg : Config) (d : option Action) (now : Q)
    (st : LastSent * option Action) (a : Action) :
  snd (send_check cfg d now st) = Some a ->
  d = Some a \/ snd st = Some a.
Proof.
  unfold send_check. destruct d as [k |]; [| now right].
  destruct (Qltb _ _); cbn [snd]; [| now right].
  intros H. left. exact H.
Qed.

Lemma send_check_monotone (cfg : Config) (d : option Action) (now : Q)
    (st : LastSent * option Action) (k : Action) :
  (0 <= COOLDOWN_SECONDS cfg)%Q ->
  (sent_at (fst st) k <= sent_at (fst (send_check cfg d now st)) k)%Q.
Proof.
  intros Hcd. unfold send_check. destruct d as [a |]; [| lra].
  destruct (Qltb _ _) eqn:E; [| lra]. apply Qltb_lt in E. cbn [fst].
  destruct (Action_eqb a k) eqn:Eak.
  - apply Action_eqb_eq in Eak. subst k. rewrite sent_at_store. lra.
  - rewrite sent_at_store_other; [lra |].
    intros ->. rewrite Action_eqb_refl in Eak. discriminate.
Qed.

Section StabilizerInvariants.

Variable cfg : Config.
Variable atan2_degrees : Q -> Q -> Q.

Lemma stabilize_held_is_last_gesture (d : option Action) (now1 now2 : Q)
    (s : State) :
  held_of (stabilize cfg d now1 now2 s) =
  last_gesture (state_of (stabilize cfg d now1 now2 s)).
Proof.
  unfold stabilize.
  pose proof (stability_check_agree d (last_gesture s)) as H.
  destruct (stability_check d (last_gesture s)) as [d' lg'].
  destruct (send_check _ _ _ _) as [ls act]. exact H.
Qed.

Lemma stabilize_action_is_held (d : option Action) (now1 now2 : Q)
    (s : State) (a : Action) :
  action_of (stabilize cfg d now1 now2 s) = Some a ->
  held_of (stabilize cfg d now1 now2 s) = Some a.
Proof.
  unfold stabilize.
  destruct (stability_check d (last_gesture s)) as [d' lg'].
  destruct (send_check cfg d' now2 (send_check cfg d' now1 (last_sent s, None)))
    as [ls act] eqn:E.
  unfold action_of, held_of. cbn [fst snd]. intros ->.
  assert (H : snd (send_check cfg d' now2
                     (send_check cfg d' now1 (last_sent s, None))) = Some a)
    by now rewrite E.
  apply send_check_action in H. destruct H as [H | H]; [exact H |].
  apply send_check_action in H. destruct H as [H | H]; [exact H | discriminate].
Qed.

Lemma stabilize_monotone (d : option Action) (now1 now2 : Q) (s : State)
    (k : Action) :
  (0 <= COOLDOWN_SECONDS cfg)%Q ->
  (sent_at (last_sent s) k <=
   sent_at (last_sent (state_of (stabilize cfg d now1 now2 s))) k)%Q.
Proof.
  intros Hcd. unfold stabilize.
  destruct (stability_check d (last_gesture s)) as [d' lg'].
  pose proof (send_check_monotone cfg d' now1 (last_sent s, None) k Hcd) as H1.
  pose proof (send_check_monotone cfg d' now2
                (send_check cfg d' now1 (last_sent s, None)) k Hcd) as H2.
  destruct (send_check cfg d' now2 _) as [ls act].
  unfold state_of. cbn [fst snd last_sent] in *. lra.
Qed.

(** What a frame does, seen from [process_frame]: either nothing at all, or
    a step of the stabilizer on the candidate of a hand that was read. *)
Lemma process_frame_cases (hands : option Landmarks) (now1 now2 : Q)
    (s : State) :
  process_frame cfg atan2_degrees hands now1 now2 s = (s, None) \/
  exists l g,
    hands = Some l /\ (21 <= length l)%nat /\
    get_hand_gesture cfg atan2_degrees l = Ok g /\
    process_frame cfg atan2_degrees hands now1 now2 s =
    (state_of (stabilize cfg (gesture_direction cfg g) now1 now2 s),
     action_of (stabilize cfg (gesture_direction cfg g) now1 now2 s)).
Proof.
  destruct hands as [l |]; [| now left].
  destruct (get_hand_gesture cfg atan2_degrees l) as [g | e] eqn:E.
  - right. exists l, g. split; [reflexivity |]. split.
    + destruct (Nat.lt_ge_cases (length l) 21) as [Hlt | Hge]; [| exact Hge].
      rewrite (get_hand_gesture_short cfg atan2_degrees l Hlt) in E.
      discriminate.
    + split; [exact E |]. now apply process_frame_classified.
  - left. unfold process_frame, try_body. now rewrite E.
Qed.

Lemma process_frame_monotone (hands : option Landmarks) (now1 now2 : Q)
    (s : State) (k : Action) :
  (0 <= COOLDOWN_SECONDS cfg)%Q ->
  (sent_at (last_sent s) k <=
   sent_at (last_sent
              (fst (process_frame cfg atan2_degrees hands now1 now2 s))) k)%Q.
Proof.
  intros Hcd.
  destruct (process_frame_cases hands now1 now2 s)
    as [E | (l & g & _ & _ & _ & E)]; rewrite E; cbn [fst].
  - lra.
  - now apply stabilize_monotone.
Qed.

End StabilizerInvariants.

(** X1.  Whenever a frame sends a key, that key is the value of
    [last_gesture] after the frame, and the frame had a hand of at least 21
    landmarks that the classifier could read. *)
Theorem key_sent_is_last_gesture (cfg : Config) (atan2_degrees : Q -> Q -> Q)
    (hands : option Landmarks) (now1 now2 : Q) (s s' : State) (a : Action) :
  process_frame cfg atan2_degrees hands now1 now2 s = (s', Some a) ->
  last_gesture s' = Some a /\
  exists l g, hands = Some l /\ (21 <= length l)%nat /\
              get_hand_gesture cfg atan2_degrees l = Ok g.
Proof.
  intros H.
  destruct (process_frame_cases cfg atan2_degrees hands now1 now2 s)
    as [E | (l & g & Hh & Hlen & Hg & E)]; rewrite E in H.
  - discriminate.
  - injection H as Hs Ha. split.
    + rewrite <- Hs, <- stabilize_held_is_last_gesture.
      now apply stabilize_action_is_held.
    + exists l, g. auto.
Qed.

Lemma key_sent_is_last_gesture_witness :
  process_frame source_config (fun _ _ => 0%Q) (Some fist) 10 10 initial_state =
    ({| last_sent := sent_store (last_sent initial_state) down 10;
        last_gesture := Some down |}, Some down) /\
  last_gesture {| last_sent := sent_store (last_sent initial_state) down 10;
                  last_gesture := Some down |} = Some down.
Proof.
  assert (E : process_frame source_config (fun _ _ => 0%Q) (Some fist) 10 10
                initial_state =
              ({| last_sent := sent_store (last_sent initial_state) down 10;
                  last_gesture := Some down |}, Some down))
    by (vm_compute; reflexivity).
  split; [exact E |].
  apply (key_sent_is_last_gesture source_config (fun _ _ => 0%Q)
           (Some fist) 10 10 initial_state _ down E).
Defined.

(** X2.  With a cooldown that is not negative, no entry of [last_sent] ever
    goes back in time: over any run of frames, whatever the hands and the
    clock readings, each entry at the end is at least what it was at the
    start. *)
Theorem last_sent_never_decreases (cfg : Config)
    (atan2_degrees : Q -> Q -> Q) (frames : list Frame) (s : State)
    (k : Action) :
  (0 <= COOLDOWN_SECONDS cfg)%Q ->
  (sent_at (last_sent s) k <=
   sent_at (last_sent (fst (run_frames cfg atan2_degrees frames s))) k)%Q.
Proof.
  intros Hcd. revert s. induction frames as [| f rest IH]; intros s.
  - cbn [run_frames fst]. lra.
  - cbn [run_frames].
    pose proof (process_frame_monotone cfg atan2_degrees (frame_hands f)
                  (frame_now1 f) (frame_now2 f) s k Hcd) as H1.
    destruct (process_frame _ _ _ _ _ _) as [s1 a1]. cbn [fst] in H1.
    specialize (IH s1).
    destruct (run_frames cfg atan2_degrees rest s1) as [s2 acts].
    cbn [fst] in *. lra.
Qed.

Lemma last_sent_never_decreases_witness :
  (0 <= COOLDOWN_SECONDS source_config)%Q /\
  (sent_at (last_sent initial_state) down <=
   sent_at (last_sent
              (fst (run_frames source_config (fun _ _ => 0%Q)
                      [mkFrame (Some fist) 10 10; mkFrame (Some fist) 3 3]
                      initial_state))) down)%Q.
Proof.
  assert (H : (0 <= COOLDOWN_SECONDS source_config)%Q)
    by (vm_compute; discriminate).
  split; [exact H |].
  apply (last_sent_never_decreases source_config (fun _ _ => 0%Q)
           [mkFrame (Some fist) 10 10; mkFrame (Some fist) 3 3]
           initial_state down H).
Defined.

Section RateLimit.

Variable cfg : Config.

Lemma stabilize_emission (d : option Action) (now : Q) (s : State)
    (a : Action) :
  action_of (stabilize cfg d now now s) = Some a ->
  (COOLDOWN_SECONDS cfg < now - sent_at (last_sent s) a)%Q /\
  sent_at (last_sent (state_of (stabilize cfg d now now s))) a = now.
Proof.
  rewrite stabilize_single_reading. unfold stabilize_once.
  destruct (stability_check d (last_gesture s)) as [d' lg'].
  destruct d' as [k |]; [| discriminate].
  unfold send_check. cbn [fst].
  destruct (Qltb (COOLDOWN_SECONDS cfg) (now - sent_at (last_sent s) k)) eqn:E;
    unfold action_of, state_of; cbn [fst snd last_sent]; [| discriminate].
  intros H. injection H as ->. apply Qltb_lt in E.
  split; [exact E | apply sent_at_store].
Qed.

Lemma run_directions_cons (d : option Action) (t : Q)
    (rest : list (option Action * Q)) (s : State) :
  snd (run_directions cfg ((d, t) :: rest) s) =
  (held_of (stabilize cfg d t t s), action_of (stabilize cfg d t t s)) ::
  snd (run_directions cfg rest (state_of (stabilize cfg d t t s))).
Proof.
  cbn [run_directions].
  destruct (stabilize cfg d t t s) as [[s1 h] act].
  unfold held_of, action_of, state_of. cbn [fst snd].
  now destruct (run_directions cfg rest s1) as [s2 out].
Qed.

(** A key sent somewhere in a run comes more than the cooldown after the
    entry that [last_sent] had for it when the run began. *)
Lemma later_emission (frames : list (option Action * Q)) :
  (0 <= COOLDOWN_SECONDS cfg)%Q ->
  forall (s : State) (j : nat) (dj hj : option Action) (tj : Q) (a : Action),
    nth_error frames j = Some (dj, tj) ->
    nth_error (snd (run_directions cfg frames s)) j = Some (hj, Some a) ->
    (COOLDOWN_SECONDS cfg < tj - sent_at (last_sent s) a)%Q.
Proof.
  intros Hcd. induction frames as [| [d t] rest IH];
    intros s j dj hj tj a Hf Ho.
  - destruct j; discriminate.
  - rewrite run_directions_cons in Ho. destruct j as [| j].
    + cbn [nth_error] in Hf, Ho. injection Hf as -> ->.
      injection Ho as _ Ha. now apply stabilize_emission in Ha.
    + cbn [nth_error] in Hf, Ho.
      pose proof (IH _ _ _ _ _ _ Hf Ho) as H.
      pose proof (stabilize_monotone cfg d t t s a Hcd) as Hm. lra.
Qed.

End RateLimit.

(** X3.  With a cooldown that is not negative and one clock reading per
    frame, two frames of a run that send the same key have readings more
    than the cooldown apart, however many frames lie between them and
    whatever they show. *)
Theorem same_key_not_within_cooldown (cfg : Config)
    (frames : list (option Action * Q)) :
  (0 <= COOLDOWN_SECONDS cfg)%Q ->
  forall (s : State) (i j : nat) (di dj hi hj : option Action) (ti tj : Q)
         (a : Action),
    (i < j)%nat ->
    nth_error frames i = Some (di, ti) ->
    nth_error frames j = Some (dj, tj) ->
    nth_error (snd (run_directions cfg frames s)) i = Some (hi, Some a) ->
    nth_error (snd (run_directions cfg frames s)) j = Some (hj, Some a) ->
    (COOLDOWN_SECONDS cfg < tj - ti)%Q.
Proof.
  intros Hcd. induction frames as [| [d t] rest IH];
    intros s i j di dj hi hj ti tj a Hij Hfi Hfj Hoi Hoj.
  - destruct i; discriminate.
  - rewrite run_directions_cons in Hoi, Hoj.
    destruct j as [| j]; [lia |]. cbn [nth_error] in Hfj, Hoj.
    destruct i as [| i].
    + cbn [nth_error] in Hfi, Hoi. injection Hfi as -> ->.
      injection Hoi as _ Ha. apply stabilize_emission in Ha.
      destruct Ha as [_ Ha].
      pose proof (later_emission cfg rest Hcd _ _ _ _ _ _ Hfj Hoj) as H.
      now rewrite Ha in H.
    + cbn [nth_error] in Hfi, Hoi.
      apply (IH (state_of (stabilize cfg d t t s)) i j di dj hi hj ti tj a);
        try assumption. lia.
Qed.

Lemma same_key_not_within_cooldown_witness :
  let frames := [(Some up, 10%Q); (Some left, 1001 # 100); (None, 1002 # 100);
                 (Some up, 11%Q)] in
  (0 <= COOLDOWN_SECONDS source_config)%Q /\
  nth_error (snd (run_directions source_config frames initial_state)) 0 =
    Some (Some up, Some up) /\
  nth_error (snd (run_directions source_config frames initial_state)) 3 =
    Some (Some up, Some up) /\
  (COOLDOWN_SECONDS source_config < 11 - 10)%Q.
Proof.
  intros frames.
  assert (Hcd : (0 <= COOLDOWN_SECONDS source_config)%Q)
    by (vm_compute; discriminate).
  assert (H0 : nth_error (snd (run_directions source_config frames
                                 initial_state)) 0 = Some (Some up, Some up))
    by (vm_compute; reflexivity).
  assert (H3 : nth_error (snd (run_directions source_config frames
                                 initial_state)) 3 = Some (Some up, Some up))
    by (vm_compute; reflexivity).
  split; [exact Hcd | split; [exact H0 | split; [exact H3 |]]].
  apply (same_key_not_within_cooldown source_config frames Hcd initial_state
           0 3 (Some up) (Some up) (Some up) (Some up) 10 11 up);
    [lia | reflexivity | reflexivity | exact H0 | exact H3].
Defined.

Section QuietFrames.

Variable cfg : Config.
Variable atan2_degrees : Q -> Q -> Q.

Lemma send_check_quiet (d : option Action) (now : Q) (ls : LastSent) :
  (forall k, now - sent_at ls k <= COOLDOWN_SECONDS cfg)%Q ->
  send_check cfg d now (ls, None) = (ls, None).
Proof.
  intros H. destruct d as [a |]; [| reflexivity].
  now apply send_check_holds.
Qed.

Lemma process_frame_quiet (hands : option Landmarks) (now1 now2 : Q)
    (s : State) :
  (forall k, now1 - sent_at (last_sent s) k <= COOLDOWN_SECONDS cfg)%Q ->
  (forall k, now2 - sent_at (last_sent s) k <= COOLDOWN_SECONDS cfg)%Q ->
  snd (process_frame cfg atan2_degrees hands now1 now2 s) = None /\
  last_sent (fst (process_frame cfg atan2_degrees hands now1 now2 s)) =
  last_sent s.
Proof.
  intros H1 H2.
  destruct (process_frame_cases cfg atan2_degrees hands now1 now2 s)
    as [E | (l & g & _ & _ & _ & E)]; rewrite E; cbn [fst snd].
  - split; reflexivity.
  - unfold stabilize, action_of, state_of.
    destruct (stability_check _ _) as [d' lg'].
    rewrite (send_check_quiet d' now1 _ H1), (send_check_quiet d' now2 _ H2).
    split; reflexivity.
Qed.

Lemma process_frame_unreadable (hands : option Landmarks) (now1 now2 : Q)
    (s : State) :
  unreadable hands ->
  process_frame cfg atan2_degrees hands now1 now2 s = (s, None).
Proof.
  destruct hands as [l |]; [| reflexivity].
  intros H. unfold process_frame, try_body.
  now rewrite (get_hand_gesture_short cfg atan2_degrees l H).
Qed.

End QuietFrames.

(** X4.  As long as the clock stays within the cooldown of every entry of
    [last_sent], no key is sent and [last_sent] stays as it is, whatever the
    frames show.  From the first state, whose entries are all 0, this is the
    case for every reading up to [COOLDOWN_SECONDS]. *)
Theorem no_key_within_cooldown_of_all (cfg : Config)
    (atan2_degrees : Q -> Q -> Q) (frames : list Frame) (s : State) :
  Forall (fun f => forall k,
            (frame_now1 f - sent_at (last_sent s) k <= COOLDOWN_SECONDS cfg)%Q /\
            (frame_now2 f - sent_at (last_sent s) k <= COOLDOWN_SECONDS cfg)%Q)
         frames ->
  snd (run_frames cfg atan2_degrees frames s) = map (fun _ => None) frames /\
  last_sent (fst (run_frames cfg atan2_degrees frames s)) = last_sent s.
Proof.
  revert s. induction frames as [| f rest IH]; intros s Hall.
  - split; reflexivity.
  - inversion Hall as [| ? ? Hf Hrest]; subst. cbn [run_frames map].
    destruct (process_frame_quiet cfg atan2_degrees (frame_hands f)
                (frame_now1 f) (frame_now2 f) s
                (fun k => proj1 (Hf k)) (fun k => proj2 (Hf k))) as [Ha Hs].
    destruct (process_frame _ _ _ _ _ _) as [s1 a1]. cbn [fst snd] in Ha, Hs.
    rewrite <- Hs in Hrest. destruct (IH s1 Hrest) as [IHa IHs].
    destruct (run_frames cfg atan2_degrees rest s1) as [s2 acts].
    cbn [fst snd] in *. split; [now rewrite Ha, IHa | now rewrite IHs].
Qed.

Lemma no_key_within_cooldown_of_all_witness :
  let frames := [mkFrame (Some fist) 0 0; mkFrame (Some short_fingers) (1 # 100) (2 # 100);
                 mkFrame (Some fist) (5 # 100) (5 # 100)] in
  snd (run_frames source_config (fun _ _ => 0%Q) frames initial_state) =
  [None; None; None].
Proof.
  intros frames.
  apply (no_key_within_cooldown_of_all source_config (fun _ _ => 0%Q)
           frames initial_state).
  subst frames.
  repeat (apply Forall_cons; [intros []; split; vm_compute; discriminate |]).
  apply Forall_nil.
Defined.

(** X5.  Frames in which the detector finds no hand, or a hand of fewer
    than 21 landmarks, send nothing and leave the state untouched: a held
    direction is not sent again while no hand is read, however long its
    cooldown has passed. *)
Theorem unreadable_frames_do_nothing (cfg : Config)
    (atan2_degrees : Q -> Q -> Q) (frames : list Frame) (s : State) :
  Forall (fun f => unreadable (frame_hands f)) frames ->
  run_frames cfg atan2_degrees frames s = (s, map (fun _ => None) frames).
Proof.
  induction frames as [| f rest IH]; intros Hall; [reflexivity |].
  inversion Hall as [| ? ? Hf Hrest]; subst. cbn [run_frames map].
  rewrite (process_frame_unreadable cfg atan2_degrees _ _ _ s Hf).
  now rewrite (IH Hrest).
Qed.

Lemma unreadable_frames_do_nothing_witness :
  let s := {| last_sent := last_sent initial_state; last_gesture := Some left |} in
  let frames := [mkFrame None 100 100; mkFrame (Some (firstn 20 fist)) 200 200] in
  run_frames source_config (fun _ _ => 0%Q) frames s = (s, [None; None]).
Proof.
  intros s frames.
  apply (unreadable_frames_do_nothing source_config (fun _ _ => 0%Q) frames s).
  subst frames.
  apply Forall_cons; [exact I |].
  apply Forall_cons; [vm_compute; lia | apply Forall_nil].
Defined.

(** ** Further facts about the classifier *)

Lemma gtb_scale (c a b : Z) : 0 < c -> (c * a >? c * b) = (a >? b).
Proof.
  intros Hc. rewrite !Z.gtb_ltb.
  destruct (Z.ltb_spec b a), (Z.ltb_spec (c * b) (c * a));
    try reflexivity; nia.
Qed.

Section Similarity.

(** A map of the image plane that multiplies every squared distance by the
    same positive number. *)
Variable f : Point -> Point.
Variable c : Z.
Hypothesis c_pos : 0 < c.
Hypothesis f_similar : forall p q : Point,
  (px (f q) - px (f p)) ^ 2 + (py (f q) - py (f p)) ^ 2 =
  c * ((px q - px p) ^ 2 + (py q - py p) ^ 2).

Lemma getitem_map (l : Landmarks) (i : nat) :
  getitem (map f l) i = (p <- getitem l i ;; Ok (f p)).
Proof.
  unfold getitem. rewrite nth_error_map.
  destruct (nth_error l i); reflexivity.
Qed.

Lemma count_fingers_similar (l : Landmarks) (w : Point)
    (pairs : list (nat * nat)) (acc : Z) :
  count_fingers (map f l) (px (f w)) (py (f w)) pairs acc =
  count_fingers l (px w) (py w) pairs acc.
Proof.
  revert acc. induction pairs as [| [tip pip] rest IH]; intros acc.
  - reflexivity.
  - cbn [count_fingers]. rewrite !getitem_map.
    destruct (getitem l tip) as [t | e]; [| reflexivity].
    destruct (getitem l pip) as [p | e]; [| reflexivity].
    cbn [bind]. rewrite (f_similar w t), (f_similar w p).
    rewrite (gtb_scale c _ _ c_pos). apply IH.
Qed.

Lemma is_roll_gesture_similar (l : Landmarks) :
  is_roll_gesture (map f l) = is_roll_gesture l.
Proof.
  unfold is_roll_gesture. rewrite getitem_map.
  destruct (getitem l 0) as [w | e]; [| reflexivity].
  cbn [bind]. now rewrite count_fingers_similar.
Qed.

End Similarity.

(** X6.  The fist test gives the same answer, or fails the same way, for a
    hand and for its mirror image, for the hand seen at another integer
    scale, and for the hand turned by a quarter of a turn. *)
Theorem fist_test_ignores_similarities (l : Landmarks) :
  (forall w : Z, is_roll_gesture (mirror w l) = is_roll_gesture l) /\
  (forall k : Z, k <> 0 -> is_roll_gesture (scale k l) = is_roll_gesture l) /\
  is_roll_gesture (quarter_turn l) = is_roll_gesture l.
Proof.
  split; [| split].
  - intros w. unfold mirror.
    apply (is_roll_gesture_similar _ 1); [lia |].
    intros p q. cbn [px py]. ring.
  - intros k Hk. unfold scale.
    apply (is_roll_gesture_similar _ (k * k)); [nia |].
    intros p q. cbn [px py]. ring.
  - unfold quarter_turn.
    apply (is_roll_gesture_similar _ 1); [lia |].
    intros p q. cbn [px py]. ring.
Qed.

Lemma fist_test_ignores_similarities_witness :
  (3 <> 0) /\
  is_roll_gesture (scale 3 short_fingers) = Ok false /\
  is_roll_gesture short_fingers = Ok false.
Proof.
  destruct (fist_test_ignores_similarities short_fingers) as (_ & Hs & _).
  assert (H3 : 3 <> 0) by lia.
  assert (E : is_roll_gesture short_fingers = Ok false)
    by (vm_compute; reflexivity).
  split; [exact H3 | split; [| exact E]].
  rewrite (Hs 3 H3). exact E.
Defined.

(** X7.  On a hand of 21 landmarks the classifier has exactly three
    answers, decided by the number of extended fingers and by the squared
    length of the wrist-to-midpoint vector: [Roll] when at most two fingers
    are extended; otherwise [Ambiguous] when that length is below the
    threshold squared; otherwise the angle of that vector, brought into
    [0, 360). *)
Theorem classification (cfg : Config) (atan2_degrees : Q -> Q -> Q)
    (l : Landmarks) :
  length l = 21%nat ->
  let t2 := (STABILITY_THRESHOLD cfg * STABILITY_THRESHOLD cfg)%Q in
  (get_hand_gesture cfg atan2_degrees l = Ok Roll <->
   (extended_fingers l <= 2)%nat) /\
  (get_hand_gesture cfg atan2_degrees l = Ok Ambiguous <->
   (2 < extended_fingers l)%nat /\ (midpoint_dist_sq l < t2)%Q) /\
  (forall a,
     get_hand_gesture cfg atan2_degrees l = Ok (Angle a) <->
     (2 < extended_fingers l)%nat /\ (t2 <= midpoint_dist_sq l)%Q /\
     a = py_mod (atan2_degrees (- midpoint_dy l)%Q (midpoint_dx l) + 360) 360).
Proof.
  intros H t2. subst t2. unfold get_hand_gesture.
  rewrite (is_roll_gesture_count l H). cbn [bind].
  destruct (Nat.leb_spec (extended_fingers l) 2) as [Hc | Hc].
  - split; [tauto |]. split; [split; [discriminate | lia] |].
    intros a. split; [discriminate | lia].
  - rewrite !getitem_in by lia. cbn [bind].
    change (inject_Z (px (landmark l 8) + px (landmark l 12)) / 2
            - inject_Z (px (landmark l 0)))%Q with (midpoint_dx l).
    change (inject_Z (py (landmark l 8) + py (landmark l 12)) / 2
            - inject_Z (py (landmark l 0)))%Q with (midpoint_dy l).
    change (midpoint_dx l * midpoint_dx l + midpoint_dy l * midpoint_dy l)%Q
      with (midpoint_dist_sq l).
    destruct (Qltb (midpoint_dist_sq l) _) eqn:E.
    + apply Qltb_lt in E.
      split; [split; [discriminate | lia] |].
      split; [tauto |].
      intros a. split; [discriminate |]. intros (_ & Hge & _). lra.
    + apply Qltb_ge in E.
      split; [split; [discriminate | lia] |].
      split; [split; [discriminate | intros [_ Hlt]; lra] |].
      intros a. split.
      * intros Ha. injection Ha as <-. auto.
      * intros (_ & _ & ->). reflexivity.
Qed.

Lemma classification_witness :
  length short_fingers = 21%nat /\
  (2 < extended_fingers short_fingers)%nat /\
  get_hand_gesture (mkConfig 35 1 (5 # 100) 1) (fun _ _ => 0%Q) short_fingers =
    Ok (Angle 0).
Proof.
  assert (H : length short_fingers = 21%nat) by reflexivity.
  assert (Hc : (2 < extended_fingers short_fingers)%nat) by (vm_compute; lia).
  split; [exact H | split; [exact Hc |]].
  destruct (classification (mkConfig 35 1 (5 # 100) 1) (fun _ _ => 0%Q)
              short_fingers H) as (_ & _ & Ha).
  apply (Ha 0%Q). split; [exact Hc |].
  split; [vm_compute; discriminate | vm_compute; reflexivity].
Defined.

(** ** Rationals written in different ways *)

Lemma Qltb_comp (x x' y y' : Q) :
  (x == x')%Q -> (y == y')%Q -> Qltb x y = Qltb x' y'.
Proof.
  intros Hx Hy.
  destruct (Qltb x y) eqn:E1, (Qltb x' y') eqn:E2; try reflexivity.
  - apply Qltb_lt in E1. apply Qltb_ge in E2. lra.
  - apply Qltb_ge in E1. apply Qltb_lt in E2. lra.
Qed.

Lemma py_mod_comp (x x' m : Q) :
  (x == x')%Q -> (py_mod x m == py_mod x' m)%Q.
Proof.
  intros Hx. unfold py_mod.
  assert (Hf : Qfloor (x / m) = Qfloor (x' / m))
    by (apply Qfloor_comp; now rewrite Hx).
  rewrite Hf, Hx. reflexivity.
Qed.

Lemma angle_to_direction_comp (cfg : Config) (a b : Q) :
  (a == b)%Q -> angle_to_direction cfg a = angle_to_direction cfg b.
Proof.
  intros H. unfold angle_to_direction.
  set (th := DIRECTION_THRESHOLD cfg).
  rewrite (Qleb_comp a b H th th (Qeq_refl _)).
  rewrite (Qleb_comp _ _ (Qeq_refl (360 - th)%Q) a b H).
  rewrite (Qleb_comp _ _ (Qeq_refl (90 - th)%Q) a b H).
  rewrite (Qleb_comp a b H _ _ (Qeq_refl (90 + th)%Q)).
  rewrite (Qleb_comp _ _ (Qeq_refl (180 - th)%Q) a b H).
  rewrite (Qleb_comp a b H _ _ (Qeq_refl (180 + th)%Q)).
  reflexivity.
Qed.

Lemma gesture_direction_equiv (cfg : Config) (g1 g2 : RawGesture) :
  gesture_equiv g1 g2 ->
  gesture_direction cfg g1 = gesture_direction cfg g2.
Proof.
  destruct g1, g2; simpl; intros H; try reflexivity; try contradiction.
  now apply angle_to_direction_comp.
Qed.

Lemma midpoint_shift (a b w o : Z) :
  (inject_Z (a + o + (b + o)) / 2 - inject_Z (w + o) ==
   inject_Z (a + b) / 2 - inject_Z w)%Q.
Proof. rewrite !inject_Z_plus. field. Qed.

Section Position.

Variable cfg : Config.
Variable atan2_degrees : Q -> Q -> Q.
Hypothesis atan2_respects : respects_Qeq atan2_degrees.

Lemma get_hand_gesture_translate (ox oy : Z) (l : Landmarks) :
  result_equiv (get_hand_gesture cfg atan2_degrees (translate ox oy l))
               (get_hand_gesture cfg atan2_degrees l).
Proof.
  unfold get_hand_gesture. rewrite is_roll_gesture_translate.
  destruct (is_roll_gesture l) as [[|] | e]; cbn [bind];
    [exact I | | reflexivity].
  rewrite !getitem_translate.
  destruct (getitem l 0) as [w | e]; cbn [bind]; [| reflexivity].
  destruct (getitem l 8) as [i | e]; cbn [bind]; [| reflexivity].
  destruct (getitem l 12) as [m | e]; cbn [bind]; [| reflexivity].
  cbv zeta. cbn [px py].
  pose proof (midpoint_shift (px i) (px m) (px w) ox) as Hx.
  pose proof (midpoint_shift (py i) (py m) (py w) oy) as Hy.
  set (dx' := (inject_Z (px i + ox + (px m + ox)) / 2 - inject_Z (px w + ox))%Q) in *.
  set (dy' := (inject_Z (py i + oy + (py m + oy)) / 2 - inject_Z (py w + oy))%Q) in *.
  set (dx := (inject_Z (px i + px m) / 2 - inject_Z (px w))%Q) in *.
  set (dy := (inject_Z (py i + py m) / 2 - inject_Z (py w))%Q) in *.
  set (t2 := (STABILITY_THRESHOLD cfg * STABILITY_THRESHOLD cfg)%Q).
  assert (Hd : Qltb (dx' * dx' + dy' * dy') t2 = Qltb (dx * dx + dy * dy) t2).
  { apply Qltb_comp; [now rewrite Hx, Hy | reflexivity]. }
  rewrite Hd. destruct (Qltb (dx * dx + dy * dy) t2); [exact I |].
  cbn [result_equiv gesture_equiv]. apply py_mod_comp.
  apply Qplus_comp; [| reflexivity].
  apply atan2_respects; [now rewrite Hy | exact Hx].
Qed.

End Position.

(** X8.  Where the hand is in the image makes no difference to a frame:
    moving all landmarks by the same offset gives the same new state and
    the same key, provided [atan2] does not look at how its arguments are
    written as fractions. *)
Theorem frame_ignores_position (cfg : Config) (atan2_degrees : Q -> Q -> Q)
    (ox oy : Z) (l : Landmarks) (now1 now2 : Q) (s : State) :
  respects_Qeq atan2_degrees ->
  process_frame cfg atan2_degrees (Some (translate ox oy l)) now1 now2 s =
  process_frame cfg atan2_degrees (Some l) now1 now2 s.
Proof.
  intros Hat.
  pose proof (get_hand_gesture_translate cfg atan2_degrees Hat ox oy l) as H.
  unfold process_frame, try_body.
  destruct (get_hand_gesture cfg atan2_degrees (translate ox oy l))
    as [g1 | e1],
    (get_hand_gesture cfg atan2_degrees l) as [g2 | e2];
    cbn [result_equiv] in H; try contradiction; cbn [bind].
  - now rewrite (gesture_direction_equiv cfg g1 g2 H).
  - reflexivity.
Qed.

Lemma frame_ignores_position_witness :
  respects_Qeq (fun x y => (x + y)%Q) /\
  process_frame (mkConfig 35 1 (5 # 100) 1) (fun x y => (x + y)%Q)
    (Some (translate 40 (-7) short_fingers)) 10 10 initial_state =
  process_frame (mkConfig 35 1 (5 # 100) 1) (fun x y => (x + y)%Q)
    (Some short_fingers) 10 10 initial_state.
Proof.
  assert (H : respects_Qeq (fun x y => (x + y)%Q)).
  { intros x x' y y' Hx Hy. now rewrite Hx, Hy. }
  split; [exact H |].
  apply (frame_ignores_position (mkConfig 35 1 (5 # 100) 1)
           (fun x y => (x + y)%Q) 40 (-7) short_fingers 10 10 initial_state H).
Defined.

(** ** Left and right as mirror images *)

Lemma Qfloor_unique (q : Q) (k : Z) :
  (inject_Z k <= q)%Q -> (q < inject_Z k + 1)%Q -> Qfloor q = k.
Proof.
  intros Hlo Hhi.
  pose proof (Qfloor_le q) as Flo. pose proof (Qlt_floor q) as Fhi.
  assert (H1 : (inject_Z k < inject_Z (Qfloor q + 1))%Q) by lra.
  assert (H2 : (inject_Z (Qfloor q) < inject_Z (k + 1))%Q)
    by (rewrite inject_Z_plus; change (inject_Z 1) with 1%Q; lra).
  rewrite <- Zlt_Qlt in H1, H2. lia.
Qed.

Lemma py_mod_360_small (x : Q) :
  (0 <= x < 360)%Q -> (py_mod x 360 == x)%Q.
Proof.
  intros H. unfold py_mod.
  rewrite (Qfloor_unique (x / 360) 0); change (inject_Z 0) with 0%Q.
  - ring.
  - apply Qle_shift_div_l; lra.
  - apply Qlt_shift_div_r; lra.
Qed.

Lemma py_mod_360_negative (x : Q) :
  (- (360) <= x < 0)%Q -> (py_mod x 360 == x + 360)%Q.
Proof.
  intros H. unfold py_mod.
  rewrite (Qfloor_unique (x / 360) (-1));
    change (inject_Z (-1)) with (- (1))%Q.
  - ring.
  - apply Qle_shift_div_l; lra.
  - apply Qlt_shift_div_r; lra.
Qed.

(** X9.  With a threshold below 45 degrees, [left] and [right] are mirror
    images of each other and [up] is its own: an angle of [0, 360) and the
    angle of the mirrored direction, [(180 - angle) % 360], map to swapped
    sides. *)
Theorem mirrored_angle_swaps_sides (cfg : Config) (a : Q) :
  (DIRECTION_THRESHOLD cfg < 45)%Q ->
  (0 <= a < 360)%Q ->
  angle_to_direction cfg (py_mod (180 - a) 360) =
  swap_sides (angle_to_direction cfg a).
Proof.
  intros H45 Ha.
  set (b := py_mod (180 - a) 360).
  assert (Hb : (0 <= b < 360)%Q) by (apply py_mod_range; reflexivity).
  assert (Hm : ((a <= 180 /\ b == 180 - a) \/ (180 < a /\ b == 540 - a))%Q).
  { destruct (Qlt_le_dec 180 a) as [Hgt | Hle].
    - right. split; [exact Hgt |]. subst b.
      rewrite py_mod_360_negative; lra.
    - left. split; [exact Hle |]. subst b.
      rewrite py_mod_360_small; lra. }
  clearbody b.
  pose proof (angle_to_direction_right cfg a Ha) as Ra.
  pose proof (angle_to_direction_right cfg b Hb) as Rb.
  pose proof (angle_to_direction_up cfg a H45) as Ua.
  pose proof (angle_to_direction_up cfg b H45) as Ub.
  pose proof (angle_to_direction_left cfg a H45) as La.
  pose proof (angle_to_direction_left cfg b H45) as Lb.
  unfold right_band, up_band, left_band, band in *.
  destruct (angle_to_direction cfg a) as [[| | |] |] eqn:Ea; cbn [swap_sides].
  - apply Rb. apply proj1 in La. specialize (La eq_refl). lra.
  - apply Lb. apply proj1 in Ra. specialize (Ra eq_refl). lra.
  - apply Ub. apply proj1 in Ua. specialize (Ua eq_refl). lra.
  - exfalso. apply (angle_to_direction_not_down cfg a Ea).
  - destruct (angle_to_direction cfg b) as [[| | |] |] eqn:Eb;
      [| | | | reflexivity]; exfalso.
    + apply proj1 in Lb. specialize (Lb eq_refl).
      assert (Hr : (None : option Action) = Some right) by (apply Ra; lra).
      discriminate.
    + apply proj1 in Rb. specialize (Rb eq_refl).
      assert (Hl : (None : option Action) = Some left) by (apply La; lra).
      discriminate.
    + apply proj1 in Ub. specialize (Ub eq_refl).
      assert (Hu : (None : option Action) = Some up) by (apply Ua; lra).
      discriminate.
    + apply (angle_to_direction_not_down cfg b Eb).
Qed.

Lemma mirrored_angle_swaps_sides_witness :
  (DIRECTION_THRESHOLD source_config < 45)%Q /\ (0 <= 200 < 360)%Q /\
  angle_to_direction source_config 200 = Some left /\
  angle_to_direction source_config (py_mod (180 - 200) 360) = Some right.
Proof.
  assert (H45 : (DIRECTION_THRESHOLD source_config < 45)%Q)
    by (vm_compute; reflexivity).
  assert (Ha : (0 <= 200 < 360)%Q)
    by (split; [vm_compute; discriminate | vm_compute; reflexivity]).
  split; [exact H45 | split; [exact Ha | split; [vm_compute; reflexivity |]]].
  rewrite (mirrored_angle_swaps_sides source_config 200 H45 Ha).
  vm_compute. reflexivity.
Defined.

(** ** The loop of [main] *)

Lemma keys_sent_app (e1 e2 : list Event) :
  keys_sent (e1 ++ e2) = keys_sent e1 ++ keys_sent e2.
Proof.
  induction e1 as [| [t | k] rest IH]; cbn [app keys_sent]; [reflexivity | |].
  - exact IH.
  - now rewrite IH.
Qed.

Lemma next_count_even (frame_count : Z) :
  ((frame_count + 1) mod 2 =? 0) = Z.odd frame_count.
Proof.
  rewrite Zmod_even, Z.add_1_r, Z.even_succ.
  destruct (Z.odd frame_count); reflexivity.
Qed.

Lemma odd_next_count (frame_count : Z) :
  Z.odd (frame_count + 1) = negb (Z.odd frame_count).
Proof. now rewrite Z.add_1_r, Z.odd_succ, <- Z.negb_odd. Qed.

Section LoopFacts.

Variable cfg : Config.
Variable atan2_degrees : Q -> Q -> Q.

(** One pass over a capture that neither fails nor quits, with
    [SKIP_FRAMES = 1]. *)
Lemma loop_pass_plain (c : Capture) (frame_count : Z) (s : State) :
  plain_capture c ->
  loop_pass cfg atan2_degrees 1 c frame_count s =
  if Z.odd frame_count then
    (match snd (process_frame cfg atan2_degrees (cap_hands c) (cap_now1 c)
                  (cap_now2 c) s) with
     | Some key => [SendKey key]
     | None => []
     end ++ [ImShow HandControl],
     None, frame_count + 1,
     fst (process_frame cfg atan2_degrees (cap_hands c) (cap_now1 c)
            (cap_now2 c) s))
  else
    ((if (frame_count + 1) mod 4 =? 0 then [ImShow HandControlQuit] else []),
     None, frame_count + 1, s).
Proof.
  intros [Hs Hq]. unfold loop_pass. rewrite Hs, Hq. cbn [negb].
  change (1 + 1 =? 0) with false. cbv iota.
  change (1 + 1) with 2. rewrite next_count_even.
  destruct (Z.odd frame_count); cbn [negb]; [| reflexivity].
  now destruct (process_frame _ _ _ _ _ _) as [s' action].
Qed.

Lemma main_loop_alternate (captures : list Capture) :
  Forall plain_capture captures ->
  forall (frame_count : Z) (s : State),
    let r := main_loop cfg atan2_degrees 1 captures frame_count s in
    let run := run_frames cfg atan2_degrees
                 (map frame_of_capture
                    (alternate (Z.odd frame_count) captures)) s in
    final_state r = fst run /\
    keys_sent (events r) = actions_sent (snd run) /\
    exit r = OutOfCaptures /\
    final_count r = frame_count + Z.of_nat (length captures).
Proof.
  induction 1 as [| c rest Hc Hrest IH]; intros frame_count s.
  - cbn. repeat split. lia.
  - cbn [main_loop]. rewrite (loop_pass_plain c frame_count s Hc).
    specialize (IH (frame_count + 1)).
    rewrite odd_next_count in IH.
    destruct (Z.odd frame_count); cbn [negb] in IH.
    + cbn [alternate map run_frames frame_of_capture
           frame_hands frame_now1 frame_now2].
      destruct (process_frame cfg atan2_degrees (cap_hands c) (cap_now1 c)
                  (cap_now2 c) s) as [s1 action].
      cbn [fst snd]. specialize (IH s1). cbv zeta in IH.
      destruct IH as (IHs & IHk & IHe & IHc).
      destruct (run_frames cfg atan2_degrees _ s1) as [s2 acts].
      cbn [fst snd events exit final_count final_state] in *.
      rewrite !keys_sent_app, IHk.
      repeat split; try assumption.
      * destruct action; reflexivity.
      * rewrite IHc. cbn [length]. lia.
    + cbn [alternate]. specialize (IH s). cbv zeta in IH.
      destruct IH as (IHs & IHk & IHe & IHc).
      cbn [fst snd events exit final_count final_state] in *.
      rewrite keys_sent_app, IHk.
      repeat split; try assumption.
      * now destruct ((frame_count + 1) mod 4 =? 0).
      * rewrite IHc. cbn [length]. lia.
Qed.

(** Whatever the captures, a pass with [SKIP_FRAMES = 1] sends a key only
    at an odd count, and at most one. *)
Lemma loop_pass_keys (c : Capture) (frame_count : Z) (s : State) :
  (length (keys_sent
             (fst (fst (fst (loop_pass cfg atan2_degrees 1 c frame_count s)))))
   <= if Z.odd frame_count then 1 else 0)%nat.
Proof.
  unfold loop_pass. destruct (cap_success c); cbn [negb]; [| cbn; lia].
  change (1 + 1 =? 0) with false. cbv iota.
  change (1 + 1) with 2. rewrite next_count_even.
  destruct (Z.odd frame_count); cbn [negb].
  - destruct (process_frame _ _ _ _ _ _) as [s' [key |]]; cbn; lia.
  - cbn [fst]. destruct (_ mod 4 =? 0); cbn; lia.
Qed.

Lemma loop_pass_count (k : Z) (c : Capture) (frame_count : Z) (s : State) :
  snd (fst (loop_pass cfg atan2_degrees k c frame_count s)) = frame_count + 1 \/
  snd (fst (fst (loop_pass cfg atan2_degrees k c frame_count s))) <> None.
Proof.
  unfold loop_pass. destruct (cap_success c); cbn [negb];
    [| right; discriminate].
  destruct (k + 1 =? 0); [right; discriminate |].
  destruct (negb _); [now left |].
  destruct (process_frame _ _ _ _ _ _) as [s' action]. now left.
Qed.

Lemma main_loop_keys (captures : list Capture) :
  forall (frame_count : Z) (s : State),
    (2 * length (keys_sent
                   (events (main_loop cfg atan2_degrees 1 captures
                              frame_count s)))
     <= length captures + if Z.odd frame_count then 1 else 0)%nat.
Proof.
  induction captures as [| c rest IH]; intros frame_count s.
  - cbn. destruct (Z.odd frame_count); lia.
  - cbn [main_loop].
    pose proof (loop_pass_keys c frame_count s) as Hk.
    pose proof (loop_pass_count 1 c frame_count s) as Hc.
    destruct (loop_pass cfg atan2_degrees 1 c frame_count s)
      as [[[ev stop] fc'] s'].
    cbn [fst snd] in Hk, Hc.
    destruct stop as [e |].
    + cbn [events length]. destruct (Z.odd frame_count); lia.
    + destruct Hc as [-> | Hc]; [| congruence].
      specialize (IH (frame_count + 1) s').
      rewrite odd_next_count in IH.
      cbn [events length]. rewrite keys_sent_app, length_app.
      destruct (Z.odd frame_count); cbn [negb] in IH; lia.
Qed.

(** A capture that fails, or on which [q] is pressed, ends the loop. *)
Lemma loop_pass_stops (k : Z) (c : Capture) (frame_count : Z) (s : State) :
  cap_success c = false \/ cap_quit c = true ->
  snd (fst (fst (loop_pass cfg atan2_degrees k c frame_count s))) <> None.
Proof.
  intros H. unfold loop_pass.
  destruct (cap_success c); cbn [negb]; [| discriminate].
  destruct H as [H | H]; [discriminate |]. rewrite H.
  destruct (k + 1 =? 0); [discriminate |].
  destruct (negb _); [discriminate |].
  destruct (process_frame _ _ _ _ _ _) as [s' action]. discriminate.
Qed.

Lemma loop_pass_quit_window (k : Z) (c : Capture) (frame_count : Z)
    (s : State) :
  (k + 1 | 4) ->
  ~ In (ImShow HandControlQuit)
       (fst (fst (fst (loop_pass cfg atan2_degrees k c frame_count s)))).
Proof.
  intros Hdiv. unfold loop_pass.
  destruct (cap_success c); cbn [negb]; [| intros []].
  destruct (Z.eqb_spec (k + 1) 0) as [E | E]; [intros [] |].
  destruct (Z.eqb_spec ((frame_count + 1) mod (k + 1)) 0) as [E1 | E1];
    cbn [negb].
  - destruct (process_frame _ _ _ _ _ _) as [s' action]. cbn [fst].
    intros Hin. apply in_app_or in Hin. destruct Hin as [Hin | Hin].
    + destruct action; [destruct Hin as [Hin | []]; discriminate | destruct Hin].
    + destruct (_ =? _); [destruct Hin as [Hin | []]; discriminate | destruct Hin].
  - cbn [fst].
    destruct (Z.eqb_spec ((frame_count + 1) mod 4) 0) as [E4 | E4];
      [| intros []].
    exfalso. apply E1.
    apply Z.mod_divide; [exact E |].
    apply (Z.divide_trans _ 4); [exact Hdiv |].
    apply Z.mod_divide; [lia | exact E4].
Qed.

End LoopFacts.

(** X10.  With [SKIP_FRAMES = 1], over captures that neither fail nor
    quit, the loop started at count 0 hands every second capture (the
    second, the fourth, ...) to the frame processing and the others to
    nothing: its final state and the keys it sends are those of
    [run_frames] over these captures, and the count ends at the number of
    captures. *)
Theorem loop_processes_every_second_capture (cfg : Config)
    (atan2_degrees : Q -> Q -> Q) (captures : list Capture) (s : State) :
  Forall plain_capture captures ->
  let r := main_loop cfg atan2_degrees 1 captures 0 s in
  let run := run_frames cfg atan2_degrees
               (map frame_of_capture (alternate false captures)) s in
  final_state r = fst run /\
  keys_sent (events r) = actions_sent (snd run) /\
  exit r = OutOfCaptures /\
  final_count r = Z.of_nat (length captures).
Proof.
  intros H.
  apply (main_loop_alternate cfg atan2_degrees captures H 0 s).
Qed.

Lemma loop_processes_every_second_capture_witness :
  let c1 := mkCapture true (Some fist) 10 10 false in
  let c2 := mkCapture true (Some short_fingers) 11 11 false in
  let c3 := mkCapture true None 12 12 false in
  let c4 := mkCapture true (Some fist) 13 13 false in
  Forall plain_capture [c1; c2; c3; c4] /\
  keys_sent (events (main_loop source_config (fun _ _ => 0%Q) 1
                       [c1; c2; c3; c4] 0 initial_state)) = [down].
Proof.
  intros c1 c2 c3 c4.
  assert (H : Forall plain_capture [c1; c2; c3; c4])
    by (repeat (apply Forall_cons; [split; reflexivity |]); apply Forall_nil).
  split; [exact H |].
  destruct (loop_processes_every_second_capture source_config
              (fun _ _ => 0%Q) [c1; c2; c3; c4] initial_state H)
    as (_ & Hk & _ & _).
  rewrite Hk. vm_compute. reflexivity.
Defined.

(** X11.  When [SKIP_FRAMES + 1] divides 4, as it does for the value 1 of
    the source, the window of the skipped frames, "Hand Control (q=quit)",
    is never shown: a skipped frame never has a count that is a multiple
    of 4. *)
Theorem quit_window_is_never_shown (cfg : Config)
    (atan2_degrees : Q -> Q -> Q) (SKIP_FRAMES : Z)
    (captures : list Capture) (frame_count : Z) (s : State) :
  (SKIP_FRAMES + 1 | 4) ->
  ~ In (ImShow HandControlQuit)
       (events (main_loop cfg atan2_degrees SKIP_FRAMES captures
                  frame_count s)).
Proof.
  intros Hdiv. revert frame_count s.
  induction captures as [| c rest IH]; intros frame_count s.
  - intros [].
  - cbn [main_loop].
    pose proof (loop_pass_quit_window cfg atan2_degrees SKIP_FRAMES c
                  frame_count s Hdiv) as Hp.
    destruct (loop_pass cfg atan2_degrees SKIP_FRAMES c frame_count s)
      as [[[ev stop] fc'] s'].
    cbn [fst] in Hp. destruct stop as [e |]; cbn [events]; [exact Hp |].
    intros Hin. apply in_app_or in Hin. destruct Hin as [Hin | Hin].
    + exact (Hp Hin).
    + exact (IH fc' s' Hin).
Qed.

Lemma quit_window_is_never_shown_witness :
  (1 + 1 | 4) /\
  ~ In (ImShow HandControlQuit)
       (events (main_loop source_config (fun _ _ => 0%Q) 1
                  (repeat (mkCapture true None 0 0 false) 8) 0 initial_state)).
Proof.
  assert (H : (1 + 1 | 4)) by (exists 2; reflexivity).
  split; [exact H |].
  apply (quit_window_is_never_shown source_config (fun _ _ => 0%Q) 1 _ 0
           initial_state H).
Defined.

Lemma loop_pass_exit (cfg : Config) (atan2_degrees : Q -> Q -> Q) (k : Z)
    (c : Capture) (frame_count : Z) (s : State) (e : Exit) :
  snd (fst (fst (loop_pass cfg atan2_degrees k c frame_count s))) = Some e ->
  e <> OutOfCaptures.
Proof.
  unfold loop_pass.
  destruct (cap_success c); cbn [negb fst snd];
    [| intros H; injection H as <-; discriminate].
  destruct (k + 1 =? 0);
    [cbn [fst snd]; intros H; injection H as <-; discriminate |].
  destruct (negb _).
  - cbn [fst snd]. destruct (cap_quit c); intros H;
      [injection H as <- |]; discriminate.
  - destruct (process_frame _ _ _ _ _ _) as [s' action]. cbn [fst snd].
    destruct (cap_quit c); intros H; [injection H as <- |]; discriminate.
Qed.

(** X12.  The loop ends at the first capture whose read fails or on which
    [q] is pressed: the captures after it have no effect on the events, the
    exit, the count or the state. *)
Theorem loop_ends_at_first_stop (cfg : Config) (atan2_degrees : Q -> Q -> Q)
    (SKIP_FRAMES : Z) (before : list Capture) (c : Capture)
    (after : list Capture) (frame_count : Z) (s : State) :
  cap_success c = false \/ cap_quit c = true ->
  main_loop cfg atan2_degrees SKIP_FRAMES (before ++ c :: after) frame_count s =
  main_loop cfg atan2_degrees SKIP_FRAMES (before ++ [c]) frame_count s /\
  exit (main_loop cfg atan2_degrees SKIP_FRAMES (before ++ c :: after)
          frame_count s) <> OutOfCaptures.
Proof.
  intros Hc. revert frame_count s.
  induction before as [| b rest IH]; intros frame_count s.
  - cbn [app main_loop].
    pose proof (loop_pass_stops cfg atan2_degrees SKIP_FRAMES c frame_count s Hc)
      as Hs.
    pose proof (loop_pass_exit cfg atan2_degrees SKIP_FRAMES c frame_count s)
      as He.
    destruct (loop_pass cfg atan2_degrees SKIP_FRAMES c frame_count s)
      as [[[ev stop] fc'] s'].
    cbn [fst snd] in Hs, He. destruct stop as [e |]; [| congruence].
    split; [reflexivity |]. cbn [exit]. now apply He.
  - cbn [app main_loop].
    pose proof (loop_pass_exit cfg atan2_degrees SKIP_FRAMES b frame_count s)
      as He.
    destruct (loop_pass cfg atan2_degrees SKIP_FRAMES b frame_count s)
      as [[[ev stop] fc'] s'].
    cbn [fst snd] in He. destruct stop as [e |].
    + split; [reflexivity |]. cbn [exit]. now apply He.
    + destruct (IH fc' s') as [IH1 IH2]. rewrite IH1.
      split; [reflexivity |]. cbn [exit]. rewrite <- IH1. exact IH2.
Qed.

Lemma loop_ends_at_first_stop_witness :
  let c1 := mkCapture true (Some fist) 10 10 false in
  let q := mkCapture true (Some fist) 11 11 true in
  cap_quit q = true /\
  events (main_loop source_config (fun _ _ => 0%Q) 1 ([c1] ++ q :: [c1; c1])
            0 initial_state) = [SendKey down; ImShow HandControl] /\
  exit (main_loop source_config (fun _ _ => 0%Q) 1 ([c1] ++ q :: [c1; c1])
          0 initial_state) = QuitPressed.
Proof.
  intros c1 q.
  assert (H : cap_success q = false \/ cap_quit q = true) by (right; reflexivity).
  split; [reflexivity |].
  destruct (loop_ends_at_first_stop source_config (fun _ _ => 0%Q) 1 [c1] q
              [c1; c1] 0 initial_state H) as [E _].
  rewrite E. split; vm_compute; reflexivity.
Defined.

(** X13.  With [SKIP_FRAMES = 1] and the count started at 0, the loop sends
    at most one key for every two captures, whatever the captures are and
    however the loop ends. *)
Theorem at_most_one_key_per_two_captures (cfg : Config)
    (atan2_degrees : Q -> Q -> Q) (captures : list Capture) (s : State) :
  (2 * length (keys_sent
                 (events (main_loop cfg atan2_degrees 1 captures 0 s)))
   <= length captures)%nat.
Proof.
  pose proof (main_loop_keys cfg atan2_degrees captures 0 s) as H.
  cbn [Z.odd] in H. lia.
Qed.

(** X14.  With two clock readings in order, as the loop takes them, a frame
    whose candidate is a direction sends it exactly when the second reading
    is past the cooldown, so a key held back at the first test can still go
    out at the second; the time stored for the key is then one of the two
    readings. *)
Theorem second_reading_decides (cfg : Config) (d : Action) (now1 now2 : Q)
    (s : State) :
  (now1 <= now2)%Q ->
  (action_of (stabilize cfg (Some d) now1 now2 s) = Some d <->
   (COOLDOWN_SECONDS cfg < now2 - sent_at (last_sent s) d)%Q) /\
  (action_of (stabilize cfg (Some d) now1 now2 s) = Some d ->
   sent_at (last_sent (state_of (stabilize cfg (Some d) now1 now2 s))) d = now1
   \/
   sent_at (last_sent (state_of (stabilize cfg (Some d) now1 now2 s))) d = now2)
  /\
  (action_of (stabilize cfg (Some d) now1 now2 s) = None ->
   last_sent (state_of (stabilize cfg (Some d) now1 now2 s)) = last_sent s).
Proof.
  intros Hle. split; [now apply stabilize_two_readings |].
  unfold stabilize, action_of, state_of.
  rewrite stability_check_new. unfold send_check. cbn [fst].
  destruct (Qltb (COOLDOWN_SECONDS cfg) (now1 - sent_at (last_sent s) d));
    cbn [fst].
  - destruct (Qltb _ _); cbn [fst snd last_sent]; split;
      try discriminate; intros _.
    + right. apply sent_at_store.
    + left. apply sent_at_store.
  - destruct (Qltb _ _); cbn [fst snd last_sent]; split;
      try discriminate; intros _.
    + right. apply sent_at_store.
    + reflexivity.
Qed.

Lemma second_reading_decides_witness :
  let s := {| last_sent := sent_store (last_sent initial_state) up 10;
              last_gesture := Some up |} in
  ((1004 # 100) <= (1006 # 100))%Q /\
  action_of (stabilize source_config (Some up) (1004 # 100) (1006 # 100) s) =
    Some up.
Proof.
  intros s.
  assert (H : ((1004 # 100) <= (1006 # 100))%Q) by (vm_compute; discriminate).
  split; [exact H |].
  destruct (second_reading_decides source_config up (1004 # 100) (1006 # 100)
              s H) as [Hiff _].
  apply Hiff. vm_compute. reflexivity.
Defined.

(** ** Frames with a hand, one after the other *)

Section HeldFrames.

Variable cfg : Config.
Variable atan2_degrees : Q -> Q -> Q.

Lemma stabilize_lost_any (g : Action) (now1 now2 : Q) (s : State) :
  last_gesture s = Some g ->
  stabilize cfg None now1 now2 s = stabilize cfg (Some g) now1 now2 s.
Proof.
  intros H. unfold stabilize.
  now rewrite H, stability_check_lost, stability_check_new.
Qed.

(** What a frame does whose direction, after the stability check, is [d]:
    it holds [d], sends [d] or nothing, and sends [d] when the later clock
    reading is past the cooldown of [d]. *)
Lemma stabilize_outcome (d : Action) (now1 now2 : Q) (s : State) :
  last_gesture (state_of (stabilize cfg (Some d) now1 now2 s)) = Some d /\
  (action_of (stabilize cfg (Some d) now1 now2 s) = Some d \/
   action_of (stabilize cfg (Some d) now1 now2 s) = None) /\
  ((now1 <= now2)%Q ->
   (COOLDOWN_SECONDS cfg < now2 - sent_at (last_sent s) d)%Q ->
   action_of (stabilize cfg (Some d) now1 now2 s) = Some d).
Proof.
  destruct (stabilize_adopts cfg d now1 now2 s) as [Hs Hh].
  split; [exact Hs |]. split.
  - destruct (action_of (stabilize cfg (Some d) now1 now2 s)) as [a |] eqn:E;
      [| now right].
    left. apply stabilize_action_is_held in E. congruence.
  - intros Hle Hcd. now apply stabilize_two_readings.
Qed.

Lemma process_frame_shows (l : Landmarks) (d : Action) (now1 now2 : Q)
    (s : State) :
  shows_direction cfg atan2_degrees l d ->
  process_frame cfg atan2_degrees (Some l) now1 now2 s =
  (state_of (stabilize cfg (Some d) now1 now2 s),
   action_of (stabilize cfg (Some d) now1 now2 s)).
Proof.
  intros (g & Hg & Hd).
  now rewrite (process_frame_classified cfg atan2_degrees l g now1 now2 s Hg), Hd.
Qed.

Lemma process_frame_neutral (l : Landmarks) (g : Action) (now1 now2 : Q)
    (s : State) :
  neutral_hand cfg atan2_degrees l ->
  last_gesture s = Some g ->
  process_frame cfg atan2_degrees (Some l) now1 now2 s =
  (state_of (stabilize cfg (Some g) now1 now2 s),
   action_of (stabilize cfg (Some g) now1 now2 s)).
Proof.
  intros (r & Hr & Hd) Hs.
  rewrite (process_frame_classified cfg atan2_degrees l r now1 now2 s Hr), Hd.
  now rewrite (stabilize_lost_any g now1 now2 s Hs).
Qed.

(** A frame with one clock reading whose direction is [d], as a state and
    an action. *)
Lemma stabilize_direction_pair (d : Action) (now : Q) (s : State) :
  (state_of (stabilize cfg (Some d) now now s),
   action_of (stabilize cfg (Some d) now now s)) =
  if Qltb (COOLDOWN_SECONDS cfg) (now - sent_at (last_sent s) d)
  then ({| last_sent := sent_store (last_sent s) d now;
           last_gesture := Some d |}, Some d)
  else ({| last_sent := last_sent s; last_gesture := Some d |}, None).
Proof.
  rewrite stabilize_direction. now destruct (Qltb _ _).
Qed.

(** A run of neutral hands while [a] is held, whatever the clock readings:
    [a] stays held, and goes out at the frames of [resend_times]. *)
Lemma neutral_run_schedule (a : Action) (fs : list (Landmarks * Q)) :
  forall s : State,
    last_gesture s = Some a ->
    Forall (fun lt => neutral_hand cfg atan2_degrees (fst lt)) fs ->
    last_gesture (fst (run_frames cfg atan2_degrees (map hand_frame fs) s))
      = Some a /\
    snd (run_frames cfg atan2_degrees (map hand_frame fs) s) =
      map (resend a)
        (resend_times (COOLDOWN_SECONDS cfg) (sent_at (last_sent s) a)
           (map snd fs)).
Proof.
  induction fs as [| [l t] rest IH]; intros s Hs Hall.
  - split; [exact Hs | reflexivity].
  - inversion Hall as [| ? ? Hl Hrest]; subst. cbn [fst] in Hl.
    cbn [map run_frames hand_frame frame_hands frame_now1 frame_now2
         fst snd resend_times].
    rewrite (process_frame_neutral l a t t s Hl Hs).
    pose proof (stabilize_direction_pair a t s) as P.
    destruct (Qltb (COOLDOWN_SECONDS cfg) (t - sent_at (last_sent s) a));
      injection P as -> ->.
    + set (s1 := {| last_sent := sent_store (last_sent s) a t;
                    last_gesture := Some a |}).
      destruct (IH s1 eq_refl Hrest) as [IH1 IH2].
      subst s1. cbn [last_sent] in IH2. rewrite sent_at_store in IH2.
      destruct (run_frames cfg atan2_degrees (map hand_frame rest) _)
        as [s2 acts].
      cbn [fst snd map resend] in *. split; [exact IH1 | now rewrite IH2].
    + set (s1 := {| last_sent := last_sent s; last_gesture := Some a |}).
      destruct (IH s1 eq_refl Hrest) as [IH1 IH2].
      subst s1. cbn [last_sent] in IH2.
      destruct (run_frames cfg atan2_degrees (map hand_frame rest) _)
        as [s2 acts].
      cbn [fst snd map resend] in *. split; [exact IH1 | now rewrite IH2].
Qed.

End HeldFrames.

(** From a state that holds [left], a frame that shows [left], a frame
    without a hand and another frame that shows [left], one second apart:
    the frame without a hand reports nothing. *)
Lemma no_hand_frame_reports_nothing :
  shows_direction source_config axis_atan2_degrees pointing_left left /\
  last_gesture holding_left = Some left /\
  snd (run_frames source_config axis_atan2_degrees
         [mkFrame (Some pointing_left) 1 1; mkFrame None 2 2;
          mkFrame (Some pointing_left) 3 3] holding_left) =
  [Some left; None; Some left].
Proof.
  split; [| split; [reflexivity | vm_compute; reflexivity]].
  exists (Angle 180). split; vm_compute; reflexivity.
Qed.

(** C3, amended.  The stabilizer is evaluated in the frames in which a hand
    is detected and read.  There, a candidate direction that differs from
    [last_gesture] becomes [last_gesture], and the direction of the frame,
    in the same evaluation; a frame without a candidate while a direction
    is held takes the held direction as its own.  So a hand that shows
    [left], a hand that shows nothing and another hand that shows [left]
    hold [left] after each of the three frames, send [left] or nothing in
    each of them, never another key, and send [left] in all three when each
    comes more than the cooldown after the one before.  A frame without a
    hand is not such an evaluation: it sends nothing and leaves the state
    as it is. *)
Theorem hysteresis_with_hand (cfg : Config) (atan2_degrees : Q -> Q -> Q) :
  (forall (d : Action) (now1 now2 : Q) (s : State),
     last_gesture s <> Some d ->
     last_gesture (state_of (stabilize cfg (Some d) now1 now2 s)) = Some d /\
     held_of (stabilize cfg (Some d) now1 now2 s) = Some d) /\
  (forall (g : Action) (now1 now2 : Q) (s : State),
     last_gesture s = Some g ->
     held_of (stabilize cfg None now1 now2 s) = Some g /\
     last_gesture (state_of (stabilize cfg None now1 now2 s)) = Some g) /\
  (forall (s : State) (t1 t2 t3 : Q),
     map fst (snd (run_directions cfg
                     [(Some left, t1); (None, t2); (Some left, t3)] s)) =
     [Some left; Some left; Some left]) /\
  (forall (l1 l2 l3 : Landmarks) (t1 t2 t3 : Q) (s : State),
     shows_direction cfg atan2_degrees l1 left ->
     neutral_hand cfg atan2_degrees l2 ->
     shows_direction cfg atan2_degrees l3 left ->
     let r1 := process_frame cfg atan2_degrees (Some l1) t1 t1 s in
     let r2 := process_frame cfg atan2_degrees (Some l2) t2 t2 (fst r1) in
     let r3 := process_frame cfg atan2_degrees (Some l3) t3 t3 (fst r2) in
     (last_gesture (fst r1) = Some left /\
      last_gesture (fst r2) = Some left /\
      last_gesture (fst r3) = Some left) /\
     ((snd r1 = Some left \/ snd r1 = None) /\
      (snd r2 = Some left \/ snd r2 = None) /\
      (snd r3 = Some left \/ snd r3 = None)) /\
     (spaced (COOLDOWN_SECONDS cfg) (sent_at (last_sent s) left) [t1; t2; t3] ->
      snd r1 = Some left /\ snd r2 = Some left /\ snd r3 = Some left)) /\
  (forall (now1 now2 : Q) (s : State),
     process_frame cfg atan2_degrees None now1 now2 s = (s, None)).
Proof.
  split; [intros d now1 now2 s _; apply stabilize_adopts |].
  split; [intros g now1 now2 s H; now apply stabilize_sticks |].
  split; [intros s t1 t2 t3; apply run_directions_left_none_left |].
  split; [| reflexivity].
  intros l1 l2 l3 t1 t2 t3 s H1 H2 H3 r1 r2 r3.
  assert (E1 : r1 = (state_of (stabilize cfg (Some left) t1 t1 s),
                     action_of (stabilize cfg (Some left) t1 t1 s)))
    by (subst r1; now apply process_frame_shows).
  destruct (stabilize_outcome cfg left t1 t1 s) as (G1 & A1 & L1).
  assert (Hg1 : last_gesture (fst r1) = Some left) by now rewrite E1.
  assert (E2 : r2 = (state_of (stabilize cfg (Some left) t2 t2 (fst r1)),
                     action_of (stabilize cfg (Some left) t2 t2 (fst r1))))
    by (subst r2; now apply process_frame_neutral).
  destruct (stabilize_outcome cfg left t2 t2 (fst r1)) as (G2 & A2 & L2).
  assert (E3 : r3 = (state_of (stabilize cfg (Some left) t3 t3 (fst r2)),
                     action_of (stabilize cfg (Some left) t3 t3 (fst r2))))
    by (subst r3; now apply process_frame_shows).
  destruct (stabilize_outcome cfg left t3 t3 (fst r2)) as (G3 & A3 & L3).
  clearbody r1 r2 r3.
  split; [| split].
  - rewrite E2, E3. cbn [fst]. auto.
  - rewrite E1, E2, E3. cbn [snd]. auto.
  - intros (S1 & S2 & S3 & _).
    assert (R1 : snd r1 = Some left)
      by (rewrite E1; cbn [snd]; apply L1; [lra | exact S1]).
    assert (T1 : sent_at (last_sent (fst r1)) left = t1).
    { rewrite E1 in R1 |- *. cbn [fst snd] in *.
      now apply stabilize_emission in R1. }
    assert (R2 : snd r2 = Some left)
      by (rewrite E2; cbn [snd]; apply L2; [lra | now rewrite T1]).
    assert (T2 : sent_at (last_sent (fst r2)) left = t2).
    { rewrite E2 in R2 |- *. cbn [fst snd] in *.
      now apply stabilize_emission in R2. }
    assert (R3 : snd r3 = Some left)
      by (rewrite E3; cbn [snd]; apply L3; [lra | now rewrite T2]).
    auto.
Qed.

Lemma hysteresis_with_hand_witness :
  shows_direction source_config axis_atan2_degrees pointing_left left /\
  neutral_hand source_config axis_atan2_degrees short_fingers /\
  spaced (COOLDOWN_SECONDS source_config)
    (sent_at (last_sent holding_left) left) [1; 2; 3]%Q /\
  snd (process_frame source_config axis_atan2_degrees (Some short_fingers) 2 2
         (fst (process_frame source_config axis_atan2_degrees
                 (Some pointing_left) 1 1 holding_left))) = Some left.
Proof.
  assert (H1 : shows_direction source_config axis_atan2_degrees
                 pointing_left left)
    by (exists (Angle 180); split; vm_compute; reflexivity).
  assert (H2 : neutral_hand source_config axis_atan2_degrees short_fingers)
    by (exists Ambiguous; split; vm_compute; reflexivity).
  assert (Hsp : spaced (COOLDOWN_SECONDS source_config)
                  (sent_at (last_sent holding_left) left) [1; 2; 3]%Q)
    by (simpl; repeat split; reflexivity).
  split; [exact H1 | split; [exact H2 | split; [exact Hsp |]]].
  destruct (hysteresis_with_hand source_config axis_atan2_degrees)
    as (_ & _ & _ & Hrun & _).
  destruct (Hrun pointing_left short_fingers pointing_left 1%Q 2%Q 3%Q
              holding_left H1 H2 H1) as (_ & _ & Hsend).
  destruct (Hsend Hsp) as (_ & R2 & _). exact R2.
Defined.

(** C10.  Once [last_gesture] holds an action, no run of frames, with or
    without a hand, readable or not, brings it back to [None].  A run of
    any length of neutral hands, at whatever clock readings, keeps the held
    action and sends it exactly at the frames that come more than the
    cooldown after the last time it was sent, and nothing at the others;
    after such a run, the next neutral hand that comes more than the
    cooldown after the last emission sends it again.  In particular, when
    every frame comes more than the cooldown after the one before, every
    frame sends it. *)
Theorem sticky_forever (cfg : Config) (atan2_degrees : Q -> Q -> Q) :
  (forall (frames : list Frame) (s : State),
     last_gesture s <> None ->
     last_gesture (fst (run_frames cfg atan2_degrees frames s)) <> None) /\
  (forall (a : Action) (fs : list (Landmarks * Q)) (s : State),
     last_gesture s = Some a ->
     Forall (fun lt => neutral_hand cfg atan2_degrees (fst lt)) fs ->
     last_gesture (fst (run_frames cfg atan2_degrees (map hand_frame fs) s))
       = Some a /\
     snd (run_frames cfg atan2_degrees (map hand_frame fs) s) =
       map (resend a)
         (resend_times (COOLDOWN_SECONDS cfg) (sent_at (last_sent s) a)
            (map snd fs))) /\
  (forall (a : Action) (fs : list (Landmarks * Q)) (s : State)
          (l : Landmarks) (t : Q),
     last_gesture s = Some a ->
     Forall (fun lt => neutral_hand cfg atan2_degrees (fst lt)) fs ->
     neutral_hand cfg atan2_degrees l ->
     let s' := fst (run_frames cfg atan2_degrees (map hand_frame fs) s) in
     (COOLDOWN_SECONDS cfg < t - sent_at (last_sent s') a)%Q ->
     snd (process_frame cfg atan2_degrees (Some l) t t s') = Some a) /\
  (forall (a : Action) (fs : list (Landmarks * Q)) (s : State),
     last_gesture s = Some a ->
     Forall (fun lt => neutral_hand cfg atan2_degrees (fst lt)) fs ->
     spaced (COOLDOWN_SECONDS cfg) (sent_at (last_sent s) a) (map snd fs) ->
     last_gesture (fst (run_frames cfg atan2_degrees (map hand_frame fs) s))
       = Some a /\
     snd (run_frames cfg atan2_degrees (map hand_frame fs) s) =
       map (fun _ => Some a) fs).
Proof.
  split; [| split; [| split]].
  - intros frames s H. now apply run_frames_keeps_gesture.
  - intros a fs s Hs Hall. now apply neutral_run_schedule.
  - intros a fs s l t Hs Hall Hl s' Hcd.
    assert (Hs' : last_gesture s' = Some a)
      by (subst s'; now apply neutral_run_schedule).
    now rewrite (neutral_frame_resends cfg atan2_degrees l a t s' Hl Hs' Hcd).
  - intros a fs s Hs Hall Hsp. now apply neutral_run_resends.
Qed.

Lemma sticky_forever_witness :
  let fs := [(short_fingers, 1%Q); (short_fingers, 31 # 30);
             (short_fingers, 32 # 30); (short_fingers, 33 # 30);
             (short_fingers, 34 # 30)] in
  last_gesture holding_left = Some left /\
  Forall (fun lt => neutral_hand source_config (fun _ _ => 0%Q) (fst lt)) fs /\
  last_gesture (fst (run_frames source_config (fun _ _ => 0%Q)
                       (map hand_frame fs) holding_left)) = Some left /\
  snd (run_frames source_config (fun _ _ => 0%Q) (map hand_frame fs)
         holding_left) = [Some left; None; Some left; None; Some left].
Proof.
  intros fs.
  assert (Hs : last_gesture holding_left = Some left) by reflexivity.
  assert (Hn : neutral_hand source_config (fun _ _ => 0%Q) short_fingers)
    by (exists Ambiguous; split; vm_compute; reflexivity).
  assert (Hall : Forall (fun lt => neutral_hand source_config (fun _ _ => 0%Q)
                                     (fst lt)) fs)
    by (subst fs; repeat (apply Forall_cons; [exact Hn |]); apply Forall_nil).
  split; [exact Hs | split; [exact Hall |]].
  destruct (sticky_forever source_config (fun _ _ => 0%Q)) as (_ & Hrun & _).
  destruct (Hrun left fs holding_left Hs Hall) as [Hg Ha].
  split; [exact Hg |]. rewrite Ha. vm_compute. reflexivity.
Defined.
